(** * ecsdemo-cicd: the Dagger module that builds, publishes and deploys
      the demo application to an ECS service.

    Source: application-code/ecsdemo-cicd/.dagger/src/ecsdemo_cicd/main.py

    The module is embedded shallowly.  Python values that travel through
    boto3 (request keyword arguments, response bodies) are JSON-shaped
    values [pyval]; dictionaries are finite maps.  The collaborators of the
    module (the Dagger engine, the secrets, boto3 and the ECS API behind it)
    are a [Platform]: a state type and one transition function per
    operation.  A run of a function of the module is a computation in the
    monad [M], which threads the platform's state, stops at the first
    exception and records every collaborator call and every printed line in
    a trace. *)

From stdpp Require Import base strings gmap list pretty.

Set Warnings "-register-all".

(** ** Python values *)

(** What boto3 hands to and takes from the module: [None], booleans,
    integers, strings, lists, dictionaries with string keys, and the
    [datetime] objects of time stamps.  A string is its sequence of
    characters. *)
Inductive pyval : Type :=
  | PNone
  | PBool (b : bool)
  | PInt (z : Z)
  | PStr (s : string)
  | PList (l : list pyval)
  | PDict (d : gmap string pyval)
  | PDatetime (iso : string).

(** ** Exceptions *)

(** The exceptions a run can end with.  [ValueError] is raised by [deploy]
    itself; [KeyError], [IndexError], [TypeError] and [AttributeError] by
    the interpreter on an ill-shaped value; [Failure] is any exception
    derived from [Exception] that a collaborator raises (a Dagger
    [ExecError], a botocore [ClientError], ...), with its text; [Interrupt]
    is an exception that derives from [BaseException] only. *)
Inductive exn : Type :=
  | ValueError (msg : string)
  | KeyError (key : pyval)
  | IndexError
  | TypeError
  | AttributeError
  | Failure (msg : string)
  | Interrupt (msg : string).

(** [isinstance(e, Exception)]: what [except Exception] catches. *)
Definition is_Exception (e : exn) : bool :=
  match e with
  | Interrupt _ => false
  | _ => true
  end.

Inductive result (A : Type) : Type :=
  | Ok (a : A)
  | Raise (e : exn).
Arguments Ok {A} a.
Arguments Raise {A} e.

#[global] Instance result_ret : MRet result := λ A a, Ok a.
#[global] Instance result_bind : MBind result := λ A B f r,
  match r with
  | Ok a => f a
  | Raise e => Raise e
  end.

(** ** The operations of Python the module uses *)

(** [bool(v)], as [not v] tests it. *)
Definition py_truthy (v : pyval) : bool :=
  match v with
  | PNone => false
  | PBool b => b
  | PInt z => negb (Z.eqb z 0)
  | PStr s => negb (String.eqb s EmptyString)
  | PList l => negb (bool_decide (length l = 0))
  | PDict d => negb (bool_decide (size d = 0))
  | PDatetime _ => true
  end.

(** [o['k']] for a string literal [k]. *)
Definition py_getitem (o : pyval) (k : string) : result pyval :=
  match o with
  | PDict d =>
      match d !! k with
      | Some v => Ok v
      | None => Raise (KeyError (PStr k))
      end
  | _ => Raise TypeError
  end.

(** [o[i]] for a literal index [i >= 0]. *)
Definition py_index (o : pyval) (i : nat) : result pyval :=
  match o with
  | PList l =>
      match l !! i with
      | Some v => Ok v
      | None => Raise IndexError
      end
  | PStr s =>
      match String.get i s with
      | Some c => Ok (PStr (String c EmptyString))
      | None => Raise IndexError
      end
  | PDict _ => Raise (KeyError (PInt (Z.of_nat i)))
  | _ => Raise TypeError
  end.

(** [needle] occurs in [s] as a substring. *)
Fixpoint is_substring (needle s : string) : bool :=
  String.prefix needle s ||
  match s with
  | EmptyString => false
  | String _ s' => is_substring needle s'
  end.

(** ['k' in o]: a key of a dictionary, an element of a list, a substring
    of a string. *)
Definition py_contains (k : string) (o : pyval) : result bool :=
  match o with
  | PDict d => Ok (bool_decide (is_Some (d !! k)))
  | PList l =>
      Ok (existsb (λ x, match x with PStr s => String.eqb s k | _ => false end) l)
  | PStr s => Ok (is_substring k s)
  | _ => Raise TypeError
  end.

(** [o['k'] = v]: only a dictionary takes a string key. *)
Definition py_setitem (o : pyval) (k : string) (v : pyval) : result pyval :=
  match o with
  | PDict d => Ok (PDict (<[k := v]> d))
  | _ => Raise TypeError
  end.

(** [o.get('k', default)]; [o.get('k')] is [py_get o k PNone]. *)
Definition py_get (o : pyval) (k : string) (default : pyval) : result pyval :=
  match o with
  | PDict d =>
      match d !! k with
      | Some v => Ok v
      | None => Ok default
      end
  | _ => Raise AttributeError
  end.

(** The elements [for x in o] runs over: the elements of a list, the
    characters of a string, the keys of a dictionary. *)
Definition py_iter (o : pyval) : result (list pyval) :=
  match o with
  | PList l => Ok l
  | PStr s => Ok ((λ c, PStr (String c EmptyString)) <$> String.list_ascii_of_string s)
  | PDict d => Ok ((λ kv, PStr kv.1) <$> map_to_list d)
  | _ => Raise TypeError
  end.

(** ** The Dagger side: containers as pipelines *)

Section Pipeline.
Context {directory : Type}.

(** One call of the [dagger.Container] builder. *)
Inductive step : Type :=
  | from_ (address : string)
  | with_workdir (path : string)
  | with_mounted_directory (path : string) (source : directory)
  | with_exec (args : list string)
  | with_entrypoint (args : list string)
  | with_exposed_port (port : Z).

(** A [dagger.Container] is lazy: the calls applied to [dag.container()],
    in order.  Nothing runs before the engine is asked for a result. *)
Definition Container : Type := list step.

(** A [dagger.Service]: the container and the arguments it is started
    with. *)
Record Service : Type := as_service {
  service_container : Container;
  service_args : list string
}.
End Pipeline.
Arguments step : clear implicits.
Arguments Container : clear implicits.
Arguments Service : clear implicits.

(** ** The collaborators *)

(** The four methods of the boto3 ECS client [deploy] calls. *)
Inductive ecs_op : Type :=
  | list_task_definitions
  | describe_task_definition
  | register_task_definition
  | update_service.

Definition ecs_op_eqb (a b : ecs_op) : bool :=
  match a, b with
  | list_task_definitions, list_task_definitions
  | describe_task_definition, describe_task_definition
  | register_task_definition, register_task_definition
  | update_service, update_service => true
  | _, _ => false
  end.

(** Everything outside the module.  [world] is the state of the outside
    (the registry, the ECS account, ...); each operation returns a value or
    raises, and moves the world.
    - [publish c address]: the engine runs the pipeline [c] and pushes the
      image, [Container.publish];
    - [plaintext s]: [Secret.plaintext];
    - [boto3_client name kwargs]: [boto3.client(name, **kwargs)];
    - [ecs_call c op kwargs]: the method [op] of the client [c];
    - [py_repr v]: [repr(v)], the text of a value that is not a string. *)
Record Platform : Type := {
  world : Type;
  directory : Type;
  secret : Type;
  client : Type;
  publish : Container directory → string → world → result string * world;
  plaintext : secret → world → result string * world;
  boto3_client : string → gmap string pyval → world → result client * world;
  ecs_call : client → ecs_op → gmap string pyval → world → result pyval * world;
  py_repr : pyval → string
}.

(** [str(v)], as an f-string renders [{v}]. *)
Definition py_str (P : Platform) (v : pyval) : string :=
  match v with
  | PStr s => s
  | _ => py_repr P v
  end.

(** A piece of a printed line: literal text, a value, an exception. *)
Inductive frag : Type :=
  | Lit (s : string)
  | Val (v : pyval)
  | Exc (e : exn).

(** What a run does that the outside can see. *)
Inductive event (P : Platform) : Type :=
  | EvPublish (c : Container (directory P)) (address : string) (r : result string)
  | EvPlaintext (s : secret P) (r : result string)
  | EvClient (name : string) (kwargs : gmap string pyval) (r : result (client P))
  | EvEcs (c : client P) (op : ecs_op) (kwargs : gmap string pyval) (r : result pyval)
  | EvPrint (line : list frag).
Arguments EvPublish {P} c address r.
Arguments EvPlaintext {P} s r.
Arguments EvClient {P} name kwargs r.
Arguments EvEcs {P} c op kwargs r.
Arguments EvPrint {P} line.

(** ** The monad of runs *)

Definition M (P : Platform) (A : Type) : Type :=
  world P → result A * list (event P) * world P.

#[global] Instance M_ret P : MRet (M P) := λ A a w, (Ok a, [], w).
#[global] Instance M_bind P : MBind (M P) := λ A B f m w,
  match m w with
  | (Ok a, t1, w1) =>
      match f a w1 with
      | (r, t2, w2) => (r, t1 ++ t2, w2)
      end
  | (Raise e, t1, w1) => (Raise e, t1, w1)
  end.

Section Run.
Context {P : Platform}.

(** A pure step: a value or an exception of the interpreter. *)
Definition lift {A} (r : result A) : M P A := λ w, (r, [], w).

Definition raise {A} (e : exn) : M P A := lift (Raise e).

Definition print (line : list frag) : M P () :=
  λ w, (Ok (), [EvPrint line], w).

Definition call_publish (c : Container (directory P)) (address : string)
  : M P string :=
  λ w, let '(r, w') := publish P c address w in (r, [EvPublish c address r], w').

Definition call_plaintext (s : secret P) : M P string :=
  λ w, let '(r, w') := plaintext P s w in (r, [EvPlaintext s r], w').

Definition call_boto3_client (name : string) (kwargs : gmap string pyval)
  : M P (client P) :=
  λ w, let '(r, w') := boto3_client P name kwargs w in
       (r, [EvClient name kwargs r], w').

Definition call_ecs (c : client P) (op : ecs_op) (kwargs : gmap string pyval)
  : M P pyval :=
  λ w, let '(r, w') := ecs_call P c op kwargs w in (r, [EvEcs c op kwargs r], w').

(** [try: body / except Exception as e: handler e]. *)
Definition try_except {A} (body : M P A) (handler : exn → M P A) : M P A :=
  λ w,
    match body w with
    | (Ok a, t1, w1) => (Ok a, t1, w1)
    | (Raise e, t1, w1) =>
        if is_Exception e then
          match handler e w1 with
          | (r, t2, w2) => (r, t1 ++ t2, w2)
          end
        else (Raise e, t1, w1)
    end.
End Run.

(** ** The module *)

(** The object of the module: its two constructor arguments. *)
Record EcsdemoCicd : Type := {
  image : string;
  registry : string
}.

(** The defaults of the constructor. *)
Definition default_EcsdemoCicd : EcsdemoCicd :=
  {| image := "public.ecr.aws/docker/library/alpine:latest";
     registry := "ttl.sh/ecsdemo-cicd" |}.

Section Module.
Context {P : Platform}.

(** [build]: the base image for the application. *)
Definition build (self : EcsdemoCicd) (dir : directory P)
  : Container (directory P) :=
  [ from_ (image self);
    with_workdir "/app";
    with_mounted_directory "/app" dir;
    with_exec ["apk"; "add"; "--no-cache"; "python3"; "py3-pip"];
    with_exec ["python3"; "-m"; "venv"; "/path/to/venv"];
    with_exec ["/path/to/venv/bin/pip3"; "install"; "-r"; "requirements.txt"] ].

(** [push]: build and publish; the published image reference. *)
Definition push (self : EcsdemoCicd) (dir : directory P) : M P string :=
  call_publish
    (build self dir ++ [with_entrypoint ["/path/to/venv/bin/python3"; "app.py"]])
    (registry self).

(** [run]: build and start locally. *)
Definition run (self : EcsdemoCicd) (dir : directory P)
  : Service (directory P) :=
  as_service (build self dir ++ [with_exposed_port 80])
             ["/path/to/venv/bin/python3"; "app.py"].

(** The body of the loop of [deploy], for one element [ctr]:
    [if 'image' in ctr: ctr['image'] = image]. *)
Definition set_image (image : string) (ctr : pyval) : result pyval :=
  has ← py_contains "image" ctr;
  if has : bool then py_setitem ctr "image" (PStr image) else Ok ctr.

(** The loop [for ctr in task_definition['containerDefinitions']], as
    the value of [task_definition['containerDefinitions']] after it.
    The elements of a list are the container definitions themselves,
    updated in place; a string or a dictionary is iterated over strings,
    which cannot be updated, and stays as it is. *)
Definition update_images (image : string) (cds : pyval) : result pyval :=
  items ← py_iter cds;
  items' ← mapM (set_image image) items;
  Ok (match cds with
      | PList _ => PList items'
      | _ => cds
      end).

(** [deploy].  The parameter [image] is rebound by the first statement.
    [task_definition] is one object throughout: after the loop it is the
    fetched body with the updated container definitions in place. *)
Definition deploy (self : EcsdemoCicd) (cluster : string) (dir : directory P)
    (access_key secret_key session_token : secret P)
    (region service task_definition_family : string)
    (image : option string) : M P string :=
  image ← push self dir;
  aws_access_key_id ← call_plaintext access_key;
  aws_secret_access_key ← call_plaintext secret_key;
  aws_session_token ← call_plaintext session_token;
  ecs_client ← call_boto3_client "ecs"
    (<["aws_access_key_id" := PStr aws_access_key_id]>
     (<["aws_secret_access_key" := PStr aws_secret_access_key]>
      (<["aws_session_token" := PStr aws_session_token]>
       {["region_name" := PStr region]})));
  try_except
    (response ← call_ecs ecs_client list_task_definitions
       (<["familyPrefix" := PStr task_definition_family]>
        (<["sort" := PStr "DESC"]>
         {["maxResults" := PInt 1]}));
     arns ← lift (py_getitem response "taskDefinitionArns");
     if negb (py_truthy arns) then
       raise (ValueError
                ("No task definitions found for family: " +:+ task_definition_family))
     else
       arns ← lift (py_getitem response "taskDefinitionArns");
       latest_task_definition_arn ← lift (py_index arns 0);
       print [Lit "Latest task definition ARN: "; Val latest_task_definition_arn];;
       described ← call_ecs ecs_client describe_task_definition
         {["taskDefinition" := latest_task_definition_arn]};
       task_definition ← lift (py_getitem described "taskDefinition");
       cds ← lift (py_getitem task_definition "containerDefinitions");
       cds ← lift (update_images image cds);
       task_definition ← lift (py_setitem task_definition "containerDefinitions" cds);
       family ← lift (py_getitem task_definition "family");
       containerDefinitions ← lift (py_getitem task_definition "containerDefinitions");
       volumes ← lift (py_get task_definition "volumes" (PList []));
       taskRoleArn ← lift (py_get task_definition "taskRoleArn" PNone);
       executionRoleArn ← lift (py_get task_definition "executionRoleArn" PNone);
       networkMode ← lift (py_get task_definition "networkMode" PNone);
       requiresCompatibilities ←
         lift (py_get task_definition "requiresCompatibilities" (PList []));
       cpu ← lift (py_get task_definition "cpu" PNone);
       memory ← lift (py_get task_definition "memory" PNone);
       new_task_definition ← call_ecs ecs_client register_task_definition
         (<["family" := family]>
          (<["containerDefinitions" := containerDefinitions]>
           (<["volumes" := volumes]>
            (<["taskRoleArn" := taskRoleArn]>
             (<["executionRoleArn" := executionRoleArn]>
              (<["networkMode" := networkMode]>
               (<["requiresCompatibilities" := requiresCompatibilities]>
                (<["cpu" := cpu]>
                 {["memory" := memory]}))))))));
       registered ← lift (py_getitem new_task_definition "taskDefinition");
       new_task_definition_arn ← lift (py_getitem registered "taskDefinitionArn");
       print [Lit "New task definition registered: "; Val new_task_definition_arn];;
       call_ecs ecs_client update_service
         (<["cluster" := PStr cluster]>
          (<["service" := PStr service]>
           {["taskDefinition" := new_task_definition_arn]}));;
       mret ("Service " +:+ service +:+ " updated to use task definition "
             +:+ py_str P new_task_definition_arn))
    (λ e, print [Lit "Error updating ECS service: "; Exc e];; raise e).
End Module.

(** ** What a trace shows *)

Section Observations.
Context {P : Platform}.

(** The calls of the client method [op] in a trace, in order: keyword
    arguments and outcome. *)
Definition ecs_calls (op : ecs_op) (tr : list (event P))
  : list (gmap string pyval * result pyval) :=
  omap (λ ev, match ev with
              | EvEcs _ op' kwargs r =>
                  if ecs_op_eqb op' op then Some (kwargs, r) else None
              | _ => None
              end) tr.

(** The outcomes of the publications in a trace. *)
Definition published (tr : list (event P)) : list (result string) :=
  omap (λ ev, match ev with
              | EvPublish _ _ r => Some r
              | _ => None
              end) tr.
End Observations.

(** The image fields of the container definitions in a
    [containerDefinitions] value. *)
Definition container_images (cds : pyval) : list pyval :=
  match cds with
  | PList l => omap (λ c, match c with
                          | PDict d => d !! "image"
                          | _ => None
                          end) l
  | _ => []
  end.

(** ** The derivation, in the words of the specification

    A container definition with an image field has it overwritten with the
    published reference; one without is left as it is. *)
Definition image_overwritten (ref : string) (c c' : pyval) : Prop :=
  ∃ d, c = PDict d ∧
    ((is_Some (d !! "image") ∧ c' = PDict (<["image" := PStr ref]> d)) ∨
     (d !! "image" = None ∧ c' = PDict d)).

(** The keyword arguments of the registration [deploy] makes from the
    fetched body [td], its family [family] and the container definitions
    [cds] after the loop. *)
Definition registration (family cds : pyval) (td : gmap string pyval)
  : gmap string pyval :=
  <["family" := family]>
  (<["containerDefinitions" := cds]>
   (<["volumes" := default (PList []) (td !! "volumes")]>
    (<["taskRoleArn" := default PNone (td !! "taskRoleArn")]>
     (<["executionRoleArn" := default PNone (td !! "executionRoleArn")]>
      (<["networkMode" := default PNone (td !! "networkMode")]>
       (<["requiresCompatibilities" :=
           default (PList []) (td !! "requiresCompatibilities")]>
        (<["cpu" := default PNone (td !! "cpu")]>
         {["memory" := default PNone (td !! "memory")]}))))))).

(** The names of the keyword arguments of the registration. *)
Definition registration_fields : list string :=
  ["family"; "containerDefinitions"; "volumes"; "taskRoleArn";
   "executionRoleArn"; "networkMode"; "requiresCompatibilities"; "cpu";
   "memory"].

(** "Preserves every field of the fetched revision except the image
    references": every top-level field of the fetched body [td] other than
    the container definitions is in the request [kwargs], with its
    value. *)
Definition preserves_every_field (td kwargs : gmap string pyval) : Prop :=
  ∀ k v, k ≠ "containerDefinitions" → td !! k = Some v → kwargs !! k = Some v.

(** The keyword arguments of the service update. *)
Definition service_update (cluster service : string) (arn : pyval)
  : gmap string pyval :=
  <["cluster" := PStr cluster]>
  (<["service" := PStr service]>
   {["taskDefinition" := arn]}).

(** ** A platform in memory

    A small ECS account to run the module against: revisions are kept
    newest first, a registration numbers the new revision after the ones of
    its family, and the answers of the registry and of a registration can
    be set to fail. *)

Module Mem.

Record account : Type := {
  next_image : result string;
  revisions : list (string * gmap string pyval);
  rejects : option exn;
  services : gmap string pyval
}.

Definition family_of (body : gmap string pyval) : string :=
  match body !! "family" with
  | Some (PStr f) => f
  | _ => EmptyString
  end.

Definition do_list (kwargs : gmap string pyval) (w : account)
  : result pyval * account :=
  match kwargs !! "familyPrefix" with
  | Some (PStr p) =>
      let arns :=
        (λ rv, PStr rv.1)
          <$> List.filter (λ rv, String.prefix p (family_of rv.2)) (revisions w) in
      (Ok (PDict {["taskDefinitionArns" := PList (take 1 arns)]}), w)
  | _ => (Raise (Failure "ParamValidationError"), w)
  end.

Definition do_describe (kwargs : gmap string pyval) (w : account)
  : result pyval * account :=
  match kwargs !! "taskDefinition" with
  | Some (PStr arn) =>
      match List.find (λ rv, String.eqb rv.1 arn) (revisions w) with
      | Some rv => (Ok (PDict {["taskDefinition" := PDict rv.2]}), w)
      | None => (Raise (Failure "ClientException"), w)
      end
  | _ => (Raise (Failure "ParamValidationError"), w)
  end.

(** The answer to a registration: the request, with its ARN and its
    revision number. *)
Definition registered_as (arn : string) (n : nat) (kwargs : gmap string pyval)
  : gmap string pyval :=
  <["taskDefinitionArn" := PStr arn]>
    (<["revision" := PInt (Z.of_nat n)]> kwargs).

Definition do_register (kwargs : gmap string pyval) (w : account)
  : result pyval * account :=
  match rejects w with
  | Some e => (Raise e, w)
  | None =>
      match kwargs !! "family" with
      | Some (PStr f) =>
          let n := S (length (List.filter (λ rv, String.eqb (family_of rv.2) f)
                                          (revisions w))) in
          let arn := "arn:aws:ecs:task-definition/" +:+ f +:+ ":" +:+ pretty n in
          let body := registered_as arn n kwargs in
          (Ok (PDict {["taskDefinition" := PDict body]}),
           {| next_image := next_image w;
              revisions := (arn, body) :: revisions w;
              rejects := rejects w;
              services := services w |})
      | _ => (Raise (Failure "ParamValidationError"), w)
      end
  end.

Definition do_update (kwargs : gmap string pyval) (w : account)
  : result pyval * account :=
  match kwargs !! "service", kwargs !! "taskDefinition" with
  | Some (PStr s), Some td =>
      (Ok (PDict {["service" := PDict kwargs]}),
       {| next_image := next_image w;
          revisions := revisions w;
          rejects := rejects w;
          services := <[s := td]> (services w) |})
  | _, _ => (Raise (Failure "ParamValidationError"), w)
  end.

Definition platform : Platform := {|
  world := account;
  directory := ();
  secret := string;
  client := ();
  publish := λ _ _ w, (next_image w, w);
  plaintext := λ s w, (Ok s, w);
  boto3_client := λ _ _ w, (Ok (), w);
  ecs_call := λ _ op kwargs w,
    match op with
    | list_task_definitions => do_list kwargs w
    | describe_task_definition => do_describe kwargs w
    | register_task_definition => do_register kwargs w
    | update_service => do_update kwargs w
    end;
  py_repr := λ _, "<object>"
|}.

(** The family of the scenario of the specification: one revision of
    "web-task", with an application container and a sidecar without
    image. *)
Definition web_task : gmap string pyval :=
  <["family" := PStr "web-task"]>
  (<["containerDefinitions" :=
      PList [PDict (<["name" := PStr "app"]> {["image" := PStr "old:1.0"]});
             PDict {["name" := PStr "sidecar"]}]]>
   (<["taskDefinitionArn" := PStr "arn:aws:ecs:task-definition/web-task:1"]>
    (<["revision" := PInt 1]>
     (<["pidMode" := PStr "host"]>
      {["cpu" := PStr "256"]})))).

Definition account0 : account := {|
  next_image := Ok "registry/app:sha123";
  revisions := [("arn:aws:ecs:task-definition/web-task:1", web_task)];
  rejects := None;
  services := ∅
|}.

(** The same account when the registry cannot be reached, and when the
    service refuses registrations. *)
Definition account_unreachable : account := {|
  next_image := Raise (Failure "publish: connection refused");
  revisions := revisions account0;
  rejects := None;
  services := ∅
|}.

Definition account_rejecting : account := {|
  next_image := next_image account0;
  revisions := revisions account0;
  rejects := Some (Failure "ClientException: registration rejected");
  services := ∅
|}.

(** An account whose only revision has no container with an image. *)
Definition sidecars : gmap string pyval :=
  <["family" := PStr "sidecars"]>
  {["containerDefinitions" := PList [PDict {["name" := PStr "sidecar"]}]]}.

Definition account_sidecars : account := {|
  next_image := next_image account0;
  revisions := [("arn:aws:ecs:task-definition/sidecars:1", sidecars)];
  rejects := None;
  services := ∅
|}.

(** The run of [deploy] the examples use. *)
Definition deploy0 (family : string) (image : option string) (w : account)
  : result string * list (event platform) * account :=
  deploy (P := platform) default_EcsdemoCicd "demo" () "AKIA" "secret" "token"
         "us-west-2" "web" family image w.

(** The account of the scenario after a first deployment. *)
Definition account1 : account := (deploy0 "web-task" None account0).2.

(** The keyword arguments of its calls. *)
Definition list_kwargs (family : string) : gmap string pyval :=
  <["familyPrefix" := PStr family]>
  (<["sort" := PStr "DESC"]>
   {["maxResults" := PInt 1]}).

Definition describe_kwargs (arn : string) : gmap string pyval :=
  {["taskDefinition" := PStr arn]}.

(** The registration of the scenario and the answer to it. *)
Definition kwargs0 : gmap string pyval :=
  registration (PStr "web-task")
    (PList [PDict (<["name" := PStr "app"]>
                     {["image" := PStr "registry/app:sha123"]});
            PDict {["name" := PStr "sidecar"]}])
    web_task.

Definition answer0 : pyval :=
  PDict {["taskDefinition" :=
            PDict (registered_as "arn:aws:ecs:task-definition/web-task:2" 2
                                 kwargs0)]}.

End Mem.

(** ** More of what a trace shows *)

Section Logs.
Context {P : Platform}.

(** The lines printed in a trace, in order. *)
Definition printed (tr : list (event P)) : list (list frag) :=
  omap (λ ev, match ev with
              | EvPrint line => Some line
              | _ => None
              end) tr.

(** The calls of the ECS client in a trace, in order: method and outcome. *)
Definition ecs_events (tr : list (event P)) : list (ecs_op * result pyval) :=
  omap (λ ev, match ev with
              | EvEcs _ op _ r => Some (op, r)
              | _ => None
              end) tr.
End Logs.

(** The line the handler of [deploy] prints: line 136. *)
Definition error_line (e : exn) : list frag :=
  [Lit "Error updating ECS service: "; Exc e].

(** The two lines [deploy] prints on its way: lines 96 and 124. *)
Definition latest_line (arn : pyval) : list frag :=
  [Lit "Latest task definition ARN: "; Val arn].

Definition registered_line (arn : pyval) : list frag :=
  [Lit "New task definition registered: "; Val arn].

(** A printed line that shows no exception. *)
Definition no_exception (line : list frag) : Prop :=
  ∀ e, Exc e ∉ line.

(** The keyword arguments of [boto3.client] in [deploy]: lines 74-80. *)
Definition client_kwargs (aws_access_key_id aws_secret_access_key
    aws_session_token region : string) : gmap string pyval :=
  <["aws_access_key_id" := PStr aws_access_key_id]>
  (<["aws_secret_access_key" := PStr aws_secret_access_key]>
   (<["aws_session_token" := PStr aws_session_token]>
    {["region_name" := PStr region]})).

(** The keyword arguments of the lookup of the latest revision:
    lines 84-88. *)
Definition latest_lookup (task_definition_family : string)
  : gmap string pyval :=
  <["familyPrefix" := PStr task_definition_family]>
  (<["sort" := PStr "DESC"]>
   {["maxResults" := PInt 1]}).

(** [new_task_definition['taskDefinition']['taskDefinitionArn']]:
    line 122. *)
Definition new_arn (new_task_definition : pyval) : result pyval :=
  registered ← py_getitem new_task_definition "taskDefinition";
  py_getitem registered "taskDefinitionArn".

(** The order of the methods of the ECS client in [deploy]. *)
Definition ecs_protocol : list ecs_op :=
  [list_task_definitions; describe_task_definition;
   register_task_definition; update_service].

(** One step of the loop of [deploy], seen from outside: the element is
    as it was, or it is a dictionary with an image field, now the
    reference. *)
Definition image_step (ref : string) (c c' : pyval) : Prop :=
  c' = c ∨
  ∃ d, c = PDict d ∧ is_Some (d !! "image") ∧
       c' = PDict (<["image" := PStr ref]> d).

(** ** The platform in memory, with faults

    The account in memory behind a faulty boundary: [answers op], when
    set, is what the method [op] of the client answers, whatever the
    account; [locked] secrets cannot be read. *)

Module Faults.

Definition platform (answers : ecs_op → option (result pyval)) (locked : bool)
  : Platform := {|
  world := Mem.account;
  directory := ();
  secret := string;
  client := ();
  publish := publish Mem.platform;
  plaintext := λ s w,
    if locked then (Raise (Failure "secret not found"), w) else (Ok s, w);
  boto3_client := boto3_client Mem.platform;
  ecs_call := λ c op kwargs w,
    match answers op with
    | Some r => (r, w)
    | None => ecs_call Mem.platform c op kwargs w
    end;
  py_repr := py_repr Mem.platform
|}.

(** A single faulty method. *)
Definition only (op : ecs_op) (r : result pyval) (op' : ecs_op)
  : option (result pyval) :=
  if ecs_op_eqb op' op then Some r else None.

(** The run of [deploy] the examples use, against the account of the
    scenario. *)
Definition deploy0 (answers : ecs_op → option (result pyval)) (locked : bool)
    (family : string)
  : result string * list (event (platform answers locked)) * Mem.account :=
  deploy (P := platform answers locked) default_EcsdemoCicd "demo" () "AKIA"
         "secret" "token" "us-west-2" "web" family None Mem.account0.

(** An account whose only revision has no family. *)
Definition nameless : gmap string pyval :=
  {["containerDefinitions" := PList [PDict {["name" := PStr "sidecar"]}]]}.

Definition account_nameless : Mem.account := {|
  Mem.next_image := Mem.next_image Mem.account0;
  Mem.revisions := [("arn:aws:ecs:task-definition/nameless:1", nameless)];
  Mem.rejects := None;
  Mem.services := ∅
|}.

(** An account whose only revision has no container definitions. *)
Definition empty_task : gmap string pyval :=
  {["family" := PStr "empty"]}.

Definition account_empty : Mem.account := {|
  Mem.next_image := Mem.next_image Mem.account0;
  Mem.revisions := [("arn:aws:ecs:task-definition/empty:1", empty_task)];
  Mem.rejects := None;
  Mem.services := ∅
|}.

(** The faults of the examples. *)
Definition no_fault (op : ecs_op) : option (result pyval) := None.

Definition update_fails : ecs_op → option (result pyval) :=
  only update_service (Raise (Failure "ServiceNotFoundException")).

Definition register_answers_nothing : ecs_op → option (result pyval) :=
  only register_task_definition (Ok (PDict ∅)).

Definition list_answers_null : ecs_op → option (result pyval) :=
  only list_task_definitions (Ok (PDict {["taskDefinitionArns" := PNone]})).

Definition null_containers : gmap string pyval :=
  <["family" := PStr "web-task"]> {["containerDefinitions" := PNone]}.

Definition describe_answers_null_containers : ecs_op → option (result pyval) :=
  only describe_task_definition
       (Ok (PDict {["taskDefinition" := PDict null_containers]})).

End Faults.

(** * Properties *)

(** An equation between closed terms, decided by evaluation. *)
Ltac by_vm :=
  lazymatch goal with
  | |- ?l = ?r => exact (@eq_refl _ r <: l = r)
  end.

Lemma elem_of_only {A} (x : A) (l : list A) : l = [x] → x ∈ l.
Proof. intros ->. left. Qed.

(** ** The operations of Python *)

Lemma py_getitem_Ok o k v :
  py_getitem o k = Ok v → ∃ d, o = PDict d ∧ d !! k = Some v.
Proof.
  destruct o; try discriminate. unfold py_getitem.
  destruct (d !! k) eqn:E; [|discriminate]. intros [= <-]. eauto.
Qed.

Lemma py_getitem_dict d k v : d !! k = Some v → py_getitem (PDict d) k = Ok v.
Proof. intros H. unfold py_getitem. by rewrite H. Qed.

Lemma py_getitem_insert d k v : py_getitem (PDict (<[k := v]> d)) k = Ok v.
Proof. unfold py_getitem. by rewrite lookup_insert_eq. Qed.

Lemma py_getitem_insert_ne d k k' v :
  k' ≠ k → py_getitem (PDict (<[k' := v]> d)) k = py_getitem (PDict d) k.
Proof. intros. unfold py_getitem. by rewrite lookup_insert_ne. Qed.

Lemma py_get_insert_ne d k k' v x :
  k' ≠ k → py_get (PDict (<[k' := v]> d)) k x = Ok (default x (d !! k)).
Proof.
  intros. unfold py_get. rewrite lookup_insert_ne by done. by destruct (d !! k).
Qed.

(** [mapM] in the monad of results: every element is mapped, or the first
    exception ends the loop. *)
Lemma mapM_result_Ok {A B} (f : A → result B) (l : list A) (k : list B) :
  mapM f l = Ok k ↔ Forall2 (λ x y, f x = Ok y) l k.
Proof.
  revert k. induction l as [|x l IH]; intros k; simpl.
  - split.
    + intros [= <-]. constructor.
    + by inversion 1.
  - unfold mbind, result_bind, mret, result_ret.
    destruct (f x) as [y|e] eqn:Hx.
    + destruct (mapM f l) as [k'|e] eqn:Hl.
      * split.
        -- intros [= <-]. constructor; [done|]. by apply IH.
        -- inversion 1 as [|? y' ? k'' Hy Hk]; subst.
           apply IH in Hk. congruence.
      * split; [done|].
        inversion 1 as [|? y' ? k'' Hy Hk]; subst.
        apply IH in Hk. congruence.
    + split; [done|]. inversion 1; congruence.
Qed.

(** ** The loop over the container definitions *)

Lemma set_image_has ref d :
  is_Some (d !! "image") →
  set_image ref (PDict d) = Ok (PDict (<["image" := PStr ref]> d)).
Proof.
  intros H. unfold set_image; simpl.
  unfold mbind, result_bind. by rewrite bool_decide_eq_true_2.
Qed.

Lemma set_image_lacks ref d :
  d !! "image" = None → set_image ref (PDict d) = Ok (PDict d).
Proof.
  intros H. unfold set_image; simpl.
  unfold mbind, result_bind. rewrite bool_decide_eq_false_2; [done|].
  rewrite H. by intros [? ?].
Qed.

Lemma set_image_overwritten ref d :
  ∃ c', set_image ref (PDict d) = Ok c' ∧ image_overwritten ref (PDict d) c'.
Proof.
  destruct (d !! "image") as [v|] eqn:Himg.
  - eexists; split; [apply set_image_has; by rewrite Himg|].
    exists d; split; [done|]. left. by rewrite Himg.
  - eexists; split; [by apply set_image_lacks|].
    exists d; split; [done|]. by right.
Qed.

(** Whatever the element, after the loop body an image field it has is
    the reference. *)
Lemma set_image_image ref c c' d v :
  set_image ref c = Ok c' → c' = PDict d → d !! "image" = Some v → v = PStr ref.
Proof.
  unfold set_image, mbind, result_bind.
  destruct c as [| | |s|l|d0|]; simpl; try done.
  - destruct (is_substring "image" s); [done|]. by intros [= <-].
  - destruct (existsb _ l); [done|]. by intros [= <-].
  - destruct (bool_decide (is_Some (d0 !! "image"))) eqn:Hc; simpl.
    + intros [= <-] [= <-]. rewrite lookup_insert_eq. by intros [= <-].
    + intros [= <-] [= <-] Hv. apply bool_decide_eq_false_1 in Hc.
      destruct Hc. by rewrite Hv.
Qed.

Lemma update_images_dicts ref cds :
  Forall (λ c, ∃ d, c = PDict d) cds →
  ∃ cds', update_images ref (PList cds) = Ok (PList cds') ∧
          Forall2 (image_overwritten ref) cds cds'.
Proof.
  intros Hd.
  assert (∃ cds', Forall2 (λ c c', set_image ref c = Ok c' ∧
                                   image_overwritten ref c c') cds cds')
    as [cds' H].
  { induction Hd as [|c l [d ->] _ [k IH]]; [by exists []|].
    destruct (set_image_overwritten ref d) as (c' & ? & ?).
    exists (c' :: k). by constructor. }
  exists cds'. split.
  - assert (mapM (set_image ref) cds = Ok cds') as Hm.
    { apply mapM_result_Ok. eapply Forall2_impl; [done|]. by intros ?? [? ?]. }
    unfold update_images; simpl. by rewrite Hm.
  - eapply Forall2_impl; [done|]. by intros ?? [? ?].
Qed.

Lemma update_images_images ref cds cds' :
  update_images ref cds = Ok cds' →
  Forall (λ v, v = PStr ref) (container_images cds').
Proof.
  unfold update_images, mbind, result_bind.
  destruct (py_iter cds) as [items|e] eqn:Hit; [|done].
  destruct (mapM (set_image ref) items) as [items'|e] eqn:Hm; [|done].
  intros [= <-]. destruct cds; try by constructor.
  simpl in Hit. injection Hit as ->. simpl.
  apply mapM_result_Ok in Hm.
  induction Hm as [|c c' items items' Hc _ IH]; [constructor|].
  simpl. destruct c' as [| | | | |d|]; try done.
  destruct (d !! "image") as [v|] eqn:Hv; [|done].
  constructor; [|done]. by eapply set_image_image.
Qed.

Lemma update_images_no_image ref cds :
  Forall (λ c, ∃ d, c = PDict d ∧ d !! "image" = None) cds →
  update_images ref (PList cds) = Ok (PList cds).
Proof.
  intros Hd.
  assert (mapM (set_image ref) cds = Ok cds) as Hm.
  { apply mapM_result_Ok. induction Hd as [|c l (d & -> & Hnone) _ IH].
    - constructor.
    - constructor; [by apply set_image_lacks|done]. }
  unfold update_images; simpl. by rewrite Hm.
Qed.

(** ** More about the loop *)

Lemma mapM_result_ext {A B} (f : A → result B) (g : B → result B)
    (g' : A → result B) (l : list A) (k : list B) :
  Forall2 (λ x y, f x = Ok y) l k →
  (∀ x y, f x = Ok y → g y = g' x) →
  mapM g k = mapM g' l.
Proof.
  intros Hlk Hg. induction Hlk as [|x y l k Hxy _ IH]; [done|].
  simpl. by rewrite (Hg x y Hxy), IH.
Qed.

Lemma set_image_again ref ref' c c' :
  set_image ref c = Ok c' → set_image ref' c' = set_image ref' c.
Proof.
  unfold set_image, mbind, result_bind.
  destruct c as [| | |s|l|d|]; simpl; try done.
  - destruct (is_substring "image" s) eqn:Hs; [done|].
    intros [= <-]. simpl. by rewrite Hs.
  - destruct (existsb _ l) eqn:Hl; [done|].
    intros [= <-]. simpl. by rewrite Hl.
  - destruct (bool_decide (is_Some (d !! "image"))) eqn:Hd; simpl.
    + intros [= <-]. simpl.
      rewrite bool_decide_eq_true_2 by (rewrite lookup_insert_eq; eauto).
      by rewrite insert_insert_eq.
    + intros [= <-]. simpl. by rewrite Hd.
Qed.

Lemma set_image_Raise ref c e : set_image ref c = Raise e → e = TypeError.
Proof.
  unfold set_image, mbind, result_bind.
  destruct c as [| | |s|l|d|]; simpl; try by intros [= <-].
  - destruct (is_substring "image" s); [by intros [= <-]|done].
  - destruct (existsb _ l); [by intros [= <-]|done].
  - by destruct (bool_decide (is_Some (d !! "image"))).
Qed.

Lemma mapM_set_image_Raise ref l e :
  mapM (set_image ref) l = Raise e → e = TypeError.
Proof.
  induction l as [|c l IH]; simpl; [done|].
  unfold mbind, result_bind.
  destruct (set_image ref c) as [c'|e'] eqn:Hc.
  - destruct (mapM (set_image ref) l) as [k|e'']; [done|].
    intros [= <-]. by apply IH.
  - intros [= <-]. by eapply set_image_Raise.
Qed.

Lemma update_images_Raise ref cds e :
  update_images ref cds = Raise e → e = TypeError.
Proof.
  unfold update_images, mbind, result_bind.
  destruct (py_iter cds) as [items|e'] eqn:Hit.
  - destruct (mapM (set_image ref) items) as [items'|e''] eqn:Hm; [done|].
    intros [= <-]. by eapply mapM_set_image_Raise.
  - intros [= <-]. destruct cds; simpl in Hit; congruence.
Qed.

Lemma set_image_step ref c c' : set_image ref c = Ok c' → image_step ref c c'.
Proof.
  unfold set_image, mbind, result_bind, image_step.
  destruct c as [| | |s|l|d|]; simpl; try done.
  - destruct (is_substring "image" s); [done|]. intros [= <-]. by left.
  - destruct (existsb _ l); [done|]. intros [= <-]. by left.
  - destruct (bool_decide (is_Some (d !! "image"))) eqn:Hd; simpl.
    + intros [= <-]. right. exists d.
      by apply bool_decide_eq_true_1 in Hd.
    + intros [= <-]. by left.
Qed.

Lemma update_images_Ok ref cds cds' :
  update_images ref cds = Ok cds' →
  ∃ items items',
    py_iter cds = Ok items ∧
    mapM (set_image ref) items = Ok items' ∧
    cds' = match cds with PList _ => PList items' | _ => cds end.
Proof.
  unfold update_images.
  destruct (py_iter cds) as [items|e] eqn:Hit; simpl; [|done].
  destruct (mapM (set_image ref) items) as [items'|e] eqn:Hm; simpl; [|done].
  intros [= <-]. by exists items, items'.
Qed.

(** X13.  Running the loop again changes nothing, and running it with
    another reference gives what that reference alone gives: the last
    reference wins. *)
Theorem update_images_again ref ref' cds cds' :
  update_images ref cds = Ok cds' →
  update_images ref cds' = Ok cds' ∧
  update_images ref' cds' = update_images ref' cds.
Proof.
  intros Hloop.
  assert (∀ r, update_images r cds' = update_images r cds) as Hany.
  { intros r.
    destruct (update_images_Ok _ _ _ Hloop) as (items & items' & Hit & Hm & ->).
    destruct cds; try done.
    simpl in Hit. injection Hit as ->.
    apply mapM_result_Ok in Hm.
    unfold update_images; simpl.
    by rewrite (mapM_result_ext _ _ (set_image r) _ _ Hm
                  (λ x y, set_image_again ref r x y)). }
  split; [by rewrite Hany|apply Hany].
Qed.

(** X14.  A loop over a list that ends well gives a list of the same
    length, in the same order, whose elements are the elements as they
    were, or, for a dictionary with an image field, the dictionary with
    that field now the reference and every other key as it was. *)
Theorem update_images_list ref l cds' :
  update_images ref (PList l) = Ok cds' →
  ∃ l', cds' = PList l' ∧ length l' = length l ∧
        Forall2 (image_step ref) l l'.
Proof.
  unfold update_images; simpl.
  destruct (mapM (set_image ref) l) as [l'|e] eqn:Hm; simpl; [|done].
  intros [= <-]. apply mapM_result_Ok in Hm.
  exists l'. split; [done|]. split; [symmetry; by eapply Forall2_length|].
  eapply Forall2_impl; [done|]. apply set_image_step.
Qed.

(** ** Runs of [deploy] *)

Section Claims.
Context {P : Platform}.

(** A run is followed call by call: every answer of a collaborator and
    every outcome of an operation of Python is a case. *)
Ltac unfold_run :=
  unfold deploy, push, try_except, call_publish, call_plaintext,
    call_boto3_client, call_ecs, print, raise, lift, mbind, M_bind, mret, M_ret.

Ltac red_run := lazy beta iota zeta delta [app negb].

Ltac run_step :=
  match goal with
  | |- context [publish ?P ?c ?a ?w] =>
      destruct (publish P c a w) as [[?ref|?e] ?w] eqn:?Hpublish
  | |- context [plaintext ?P ?s ?w] =>
      destruct (plaintext P s w) as [[?key|?e] ?w] eqn:?Hplaintext
  | |- context [boto3_client ?P ?n ?kw ?w] =>
      destruct (boto3_client P n kw w) as [[?cl|?e] ?w] eqn:?Hclient
  | |- context [ecs_call ?P ?c ?op ?kw ?w] =>
      destruct (ecs_call P c op kw w) as [[?resp|?e] ?w] eqn:?Hecs
  | |- context [py_setitem (PDict ?d) ?k ?v] =>
      change (py_setitem (PDict d) k v) with (Ok (PDict (<[k := v]> d)))
  | |- context [py_getitem (PDict (<[?k := ?v]> ?d)) ?k] =>
      rewrite (py_getitem_insert d k v)
  | |- context [py_getitem (PDict (<[?k' := ?v]> ?d)) ?k] =>
      rewrite (py_getitem_insert_ne d k k' v) by done
  | |- context [py_get (PDict (<[?k' := ?v]> ?d)) ?k ?x] =>
      rewrite (py_get_insert_ne d k k' v x) by done
  | |- context [py_getitem (PDict ?d) ?k] =>
      change (py_getitem (PDict d) k)
        with (match d !! k with
              | Some v => Ok v
              | None => Raise (KeyError (PStr k))
              end);
      destruct (d !! k) as [?v|] eqn:?Hlookup
  | |- context [py_getitem ?o ?k] =>
      is_var o;
      let H := fresh "Hget" in
      destruct (py_getitem o k) as [?v|?e] eqn:H;
      [ apply py_getitem_Ok in H as (?d & -> & H) |]
  | |- context [py_truthy ?v] => destruct (py_truthy v) eqn:?Htruthy
  | |- context [py_index ?o ?i] =>
      destruct (py_index o i) as [?v|?e] eqn:?Hindex
  | |- context [update_images ?i ?c] =>
      destruct (update_images i c) as [?v|?e] eqn:?Hupdate
  | |- context [is_Exception ?e] => destruct (is_Exception e) eqn:?Hexc
  end; red_run.

(** [run_deploy H] splits the run [H : deploy ... w = (r, tr, w')] into
    its cases; in each, [r], [tr] and [w'] are what the case gives. *)
Ltac run_deploy H :=
  revert H; unfold_run; red_run; repeat run_step;
  (let Heq := fresh in intros Heq; simplify_eq Heq; clear Heq; intros; subst);
  cbn [ecs_calls published omap list_omap ecs_op_eqb] in *.

(** Membership in the short lists of calls of a case, and the subscripts
    of the claim's own hypotheses. *)
Ltac elems :=
  repeat match goal with
  | H : _ ∈ [] |- _ => by apply elem_of_nil in H
  | H : _ ∈ _ :: _ |- _ => apply elem_of_cons in H as [H|H]
  end.

Ltac subscripts :=
  repeat match goal with
  | H : py_getitem (PDict ?d) ?k = _, H' : ?d !! ?k = _ |- _ =>
      unfold py_getitem in H; rewrite H' in H
  end.

Ltac leaves :=
  elems; simplify_eq; repeat (progress subscripts; simplify_eq); try congruence.

(** What a registration in a run was made from. *)
Lemma run_registration self cluster dir access_key secret_key
    session_token region service task_definition_family image w
    r (tr : list (event P)) w' kwargs answer :
  deploy self cluster dir access_key secret_key session_token region service
         task_definition_family image w = (r, tr, w') →
  (kwargs, answer) ∈ ecs_calls register_task_definition tr →
  ∃ ref kwargs_d described td family cds cds',
    published tr = [Ok ref] ∧
    ecs_calls describe_task_definition tr = [(kwargs_d, Ok (PDict described))] ∧
    described !! "taskDefinition" = Some (PDict td) ∧
    td !! "family" = Some family ∧
    td !! "containerDefinitions" = Some cds ∧
    update_images ref cds = Ok cds' ∧
    kwargs = registration family cds' td ∧
    ecs_calls register_task_definition tr = [(kwargs, answer)].
Proof.
  intros Hrun Hin.
  run_deploy Hrun; leaves.
  all: by eexists _, _, _, _, _, _, _.
Qed.

(** What a run that returns has done. *)
Lemma run_success self cluster dir access_key secret_key
    session_token region service task_definition_family image w
    s (tr : list (event P)) w' :
  deploy self cluster dir access_key secret_key session_token region service
         task_definition_family image w = (Ok s, tr, w') →
  ∃ ref kwargs new_task_definition registered arn ack,
    published tr = [Ok ref] ∧
    ecs_calls register_task_definition tr = [(kwargs, Ok new_task_definition)] ∧
    py_getitem new_task_definition "taskDefinition" = Ok registered ∧
    py_getitem registered "taskDefinitionArn" = Ok arn ∧
    ecs_calls update_service tr = [(service_update cluster service arn, Ok ack)] ∧
    s = "Service " +:+ service +:+ " updated to use task definition "
        +:+ py_str P arn.
Proof.
  intros Hrun.
  run_deploy Hrun.
  eexists _, _, _, _, _, _. split; [done|]. split; [done|].
  split; [by apply py_getitem_dict|].
  split; [by apply py_getitem_dict|]. done.
Qed.

Lemma registration_containers family cds td :
  registration family cds td !! "containerDefinitions" = Some cds.
Proof. unfold registration. by simplify_map_eq. Qed.

Lemma registration_family family cds td :
  registration family cds td !! "family" = Some family.
Proof. unfold registration. by simplify_map_eq. Qed.

(** C3.  When ListTaskDefinitions answers with an empty array of ARNs,
    [deploy] raises the "family not found" error, a [ValueError] that names
    the family, and calls neither DescribeTaskDefinition nor
    RegisterTaskDefinition nor UpdateService. *)
Theorem deploy_family_not_found self cluster dir access_key secret_key
    session_token region service task_definition_family image w
    r (tr : list (event P)) w' kwargs response :
  deploy self cluster dir access_key secret_key session_token region service
         task_definition_family image w = (r, tr, w') →
  (kwargs, Ok response) ∈ ecs_calls list_task_definitions tr →
  py_getitem response "taskDefinitionArns" = Ok (PList []) →
  r = Raise (ValueError ("No task definitions found for family: "
                         +:+ task_definition_family)) ∧
  ecs_calls describe_task_definition tr = [] ∧
  ecs_calls register_task_definition tr = [] ∧
  ecs_calls update_service tr = [].
Proof.
  intros Hrun Hin Hempty.
  run_deploy Hrun; leaves; try done.
Qed.

(** C4.  When RegisterTaskDefinition raises, [deploy] raises that very
    exception and never calls UpdateService. *)
Theorem deploy_registration_failure self cluster dir access_key secret_key
    session_token region service task_definition_family image w
    r (tr : list (event P)) w' kwargs e :
  deploy self cluster dir access_key secret_key session_token region service
         task_definition_family image w = (r, tr, w') →
  (kwargs, Raise e) ∈ ecs_calls register_task_definition tr →
  r = Raise e ∧ ecs_calls update_service tr = [].
Proof.
  intros Hrun Hin.
  run_deploy Hrun; leaves; try done.
Qed.

(** C6.  When the publication of [push] raises, [deploy] raises that very
    exception, and the publication is all the run did: no method of the
    ECS client is called. *)
Theorem deploy_push_failure self cluster dir access_key secret_key
    session_token region service task_definition_family image w
    r (tr : list (event P)) w' e :
  deploy self cluster dir access_key secret_key session_token region service
         task_definition_family image w = (r, tr, w') →
  Raise e ∈ published tr →
  r = Raise e ∧
  tr = [EvPublish
          (build self dir ++ [with_entrypoint ["/path/to/venv/bin/python3"; "app.py"]])
          (registry self) (Raise e)] ∧
  ∀ op, ecs_calls op tr = [].
Proof.
  intros Hrun Hin.
  run_deploy Hrun; leaves; try done.
Qed.

(** C8.  A run of [deploy] that returns has registered one revision and
    updated the service once, with the ARN [arn] the registration answered,
    and returns "Service <service> updated to use task definition <arn>". *)
Theorem deploy_returns_confirmation self cluster dir access_key secret_key
    session_token region service task_definition_family image w
    s (tr : list (event P)) w' :
  deploy self cluster dir access_key secret_key session_token region service
         task_definition_family image w = (Ok s, tr, w') →
  ∃ kwargs new_task_definition registered arn ack,
    ecs_calls register_task_definition tr = [(kwargs, Ok new_task_definition)] ∧
    py_getitem new_task_definition "taskDefinition" = Ok registered ∧
    py_getitem registered "taskDefinitionArn" = Ok arn ∧
    ecs_calls update_service tr = [(service_update cluster service arn, Ok ack)] ∧
    s = "Service " +:+ service +:+ " updated to use task definition "
        +:+ py_str P arn ∧
    ∀ a, arn = PStr a →
         s = "Service " +:+ service +:+ " updated to use task definition " +:+ a.
Proof.
  intros Hrun.
  destruct (run_success _ _ _ _ _ _ _ _ _ _ _ _ _ _ Hrun)
    as (ref & kwargs & new & registered & arn & ack & _ & Hreg & Hnew & Harn
        & Hupd & ->).
  exists kwargs, new, registered, arn, ack.
  repeat (split; [done|]). by intros a ->.
Qed.

(** C10.  When no container definition of the fetched revision has an
    image field, [deploy] still calls RegisterTaskDefinition, exactly once
    and with the container definitions as they were fetched; and when that
    call answers with an ARN, it calls UpdateService, exactly once and with
    that ARN. *)
Theorem deploy_without_images self cluster dir access_key secret_key
    session_token region service task_definition_family image w
    r (tr : list (event P)) w' kwargs described td family cds :
  deploy self cluster dir access_key secret_key session_token region service
         task_definition_family image w = (r, tr, w') →
  (kwargs, Ok described) ∈ ecs_calls describe_task_definition tr →
  py_getitem described "taskDefinition" = Ok (PDict td) →
  td !! "family" = Some family →
  td !! "containerDefinitions" = Some (PList cds) →
  Forall (λ c, ∃ d, c = PDict d ∧ d !! "image" = None) cds →
  ∃ answer,
    ecs_calls register_task_definition tr
      = [(registration family (PList cds) td, answer)] ∧
    ∀ new_task_definition registered arn,
      answer = Ok new_task_definition →
      py_getitem new_task_definition "taskDefinition" = Ok registered →
      py_getitem registered "taskDefinitionArn" = Ok arn →
      ∃ ack, ecs_calls update_service tr
             = [(service_update cluster service arn, ack)].
Proof.
  intros Hrun Hin Htd Hfamily Hcds Hnone.
  pose proof (update_images_no_image) as Hloop.
  run_deploy Hrun; leaves.
  all: try match goal with
       | H : update_images ?ref _ = _ |- _ =>
           rewrite (Hloop ref _ Hnone) in H; simplify_eq
       end.
  all: unfold registration, service_update.
  all: eexists; (split; [reflexivity|]).
  all: intros new registered arn ? Hreg Harn; leaves.
  all: eexists; reflexivity.
Qed.

(** C1.  In a run that published the image [ref] and fetched a revision
    whose container definitions [cds] are dictionaries, the loop of
    [deploy] ends with container definitions [cds'] that are [cds] element
    by element, with the image field overwritten with [ref] where there
    was one and the definition as it was (no image field) where there was
    none; a registration of the run is made with [cds'], and there is one
    as soon as the fetched revision has a family. *)
Theorem deploy_overwrites_images self cluster dir access_key secret_key
    session_token region service task_definition_family image w
    r (tr : list (event P)) w' ref kwargs described td cds :
  deploy self cluster dir access_key secret_key session_token region service
         task_definition_family image w = (r, tr, w') →
  Ok ref ∈ published tr →
  (kwargs, Ok described) ∈ ecs_calls describe_task_definition tr →
  py_getitem described "taskDefinition" = Ok (PDict td) →
  td !! "containerDefinitions" = Some (PList cds) →
  Forall (λ c, ∃ d, c = PDict d) cds →
  ∃ cds',
    update_images ref (PList cds) = Ok (PList cds') ∧
    Forall2 (image_overwritten ref) cds cds' ∧
    (∀ kwargs_r answer,
       (kwargs_r, answer) ∈ ecs_calls register_task_definition tr →
       kwargs_r !! "containerDefinitions" = Some (PList cds')) ∧
    (∀ family,
       td !! "family" = Some family →
       ∃ answer, ecs_calls register_task_definition tr
                 = [(registration family (PList cds') td, answer)]).
Proof.
  intros Hrun Hpub Hin Htd Hcds Hdicts.
  destruct (update_images_dicts ref cds Hdicts) as (cds' & Hloop & Hrel).
  exists cds'. split; [done|]. split; [done|]. clear Hrel Hdicts.
  run_deploy Hrun; leaves.
  all: try match goal with
       | H : update_images _ _ = _ |- _ => rewrite Hloop in H; simplify_eq
       end.
  all: split; [intros kwargs_r answer Hr; leaves | intros family Hf; leaves].
  all: try done.
  all: try by (unfold registration; eexists).
  all: by simplify_map_eq.
Qed.

(** C5.  The argument [image] of [deploy] plays no part: two runs that
    differ in it only are the same run, calls, result and all; and the
    image fields of the container definitions a run registers are the
    reference [push] returned. *)
Theorem deploy_ignores_image_argument self cluster dir access_key secret_key
    session_token region service task_definition_family image1 image2 w :
  deploy (P := P) self cluster dir access_key secret_key session_token region
         service task_definition_family image1 w
  = deploy self cluster dir access_key secret_key session_token region
           service task_definition_family image2 w ∧
  ∀ r (tr : list (event P)) w' ref kwargs answer,
    deploy self cluster dir access_key secret_key session_token region
           service task_definition_family image1 w = (r, tr, w') →
    Ok ref ∈ published tr →
    (kwargs, answer) ∈ ecs_calls register_task_definition tr →
    ∃ cds, kwargs !! "containerDefinitions" = Some cds ∧
           Forall (λ v, v = PStr ref) (container_images cds).
Proof.
  split; [reflexivity|].
  intros r tr w' ref kwargs answer Hrun Hpub Hin.
  destruct (run_registration _ _ _ _ _ _ _ _ _ _ _ _ _ _ _ _ Hrun Hin)
    as (ref' & kwargs_d & described & td & family & cds & cds' & Hp & _ & _
        & _ & _ & Hloop & -> & _).
  rewrite Hp in Hpub. apply list_elem_of_singleton in Hpub as [= <-].
  exists cds'. split; [apply registration_containers|].
  by eapply update_images_images.
Qed.

(** C9.  The family prefix of the lookup is the argument
    [task_definition_family]; the family of the registration is the
    ['family'] field of the fetched revision, whatever the argument; and
    the two can differ: against an account whose only family is "web-task",
    a deployment to the family "web" registers a revision of "web-task". *)
Theorem deploy_registers_fetched_family self cluster dir access_key secret_key
    session_token region service task_definition_family image w
    r (tr : list (event P)) w' :
  deploy self cluster dir access_key secret_key session_token region service
         task_definition_family image w = (r, tr, w') →
  (∀ kwargs answer,
     (kwargs, answer) ∈ ecs_calls list_task_definitions tr →
     kwargs !! "familyPrefix" = Some (PStr task_definition_family)) ∧
  (∀ kwargs_d described td kwargs answer,
     (kwargs_d, Ok described) ∈ ecs_calls describe_task_definition tr →
     py_getitem described "taskDefinition" = Ok td →
     (kwargs, answer) ∈ ecs_calls register_task_definition tr →
     ∃ family, py_getitem td "family" = Ok family ∧
               kwargs !! "family" = Some family) ∧
  (λ call, call.1 !! "family")
    <$> ecs_calls register_task_definition
          (Mem.deploy0 "web" None Mem.account0).1.2
  = [Some (PStr "web-task")].
Proof.
  intros Hrun. split; [|split].
  - intros kwargs answer Hin.
    run_deploy Hrun; leaves. all: by simplify_map_eq.
  - intros kwargs_d described td kwargs answer Hd Htd Hin.
    destruct (run_registration _ _ _ _ _ _ _ _ _ _ _ _ _ _ _ _ Hrun Hin)
      as (ref & kwargs_d' & described' & td' & family & cds & cds' & _ & Hd'
          & Hdt & Hf & _ & _ & -> & _).
    rewrite Hd' in Hd. apply list_elem_of_singleton in Hd as [= -> ->].
    unfold py_getitem in Htd. rewrite Hdt in Htd. injection Htd as <-.
    exists family. split; [by apply py_getitem_dict|].
    apply registration_family.
  - by_vm.
Qed.


(** C2, as the code has it.  In a run that fetched a revision [td] with a
    family and container definitions the loop accepts, [deploy] makes one
    registration, whatever other fields [td] has or lacks.  It carries nine
    keyword arguments and no other: the family and the container
    definitions after the loop, and [volumes], [taskRoleArn],
    [executionRoleArn], [networkMode], [requiresCompatibilities], [cpu]
    and [memory], each the field of [td], or, where [td] has no such field,
    the empty list for [volumes] and [requiresCompatibilities] and [None]
    for the others.  A field of [td] under any other name is not passed
    on. *)
Theorem deploy_registration_fields self cluster dir access_key secret_key
    session_token region service task_definition_family image w
    r (tr : list (event P)) w' ref kwargs_d described td family cds cds' :
  deploy self cluster dir access_key secret_key session_token region service
         task_definition_family image w = (r, tr, w') →
  Ok ref ∈ published tr →
  (kwargs_d, Ok described) ∈ ecs_calls describe_task_definition tr →
  py_getitem described "taskDefinition" = Ok (PDict td) →
  td !! "family" = Some family →
  td !! "containerDefinitions" = Some cds →
  update_images ref cds = Ok cds' →
  ∃ kwargs answer,
    ecs_calls register_task_definition tr = [(kwargs, answer)] ∧
    kwargs !! "family" = Some family ∧
    kwargs !! "containerDefinitions" = Some cds' ∧
    kwargs !! "volumes" = Some (default (PList []) (td !! "volumes")) ∧
    kwargs !! "taskRoleArn" = Some (default PNone (td !! "taskRoleArn")) ∧
    kwargs !! "executionRoleArn"
      = Some (default PNone (td !! "executionRoleArn")) ∧
    kwargs !! "networkMode" = Some (default PNone (td !! "networkMode")) ∧
    kwargs !! "requiresCompatibilities"
      = Some (default (PList []) (td !! "requiresCompatibilities")) ∧
    kwargs !! "cpu" = Some (default PNone (td !! "cpu")) ∧
    kwargs !! "memory" = Some (default PNone (td !! "memory")) ∧
    (∀ k, k ∉ registration_fields → kwargs !! k = None).
Proof.
  intros Hrun Hpub Hd Htd Hfamily Hcds Hloop.
  assert (∀ k, k ∉ registration_fields →
               registration family cds' td !! k = None) as Hother.
  { intros k Hk. unfold registration_fields in Hk.
    rewrite !not_elem_of_cons in Hk.
    destruct Hk as (? & ? & ? & ? & ? & ? & ? & ? & ? & _).
    unfold registration. by simplify_map_eq. }
  assert (∃ answer, ecs_calls register_task_definition tr
                    = [(registration family cds' td, answer)]) as [answer ->].
  { clear Hother. run_deploy Hrun; leaves.
    all: try match goal with
         | H : update_images _ _ = _ |- _ => rewrite Hloop in H; simplify_eq
         end.
    all: unfold registration; by eexists. }
  exists (registration family cds' td), answer.
  split; [done|]. split; [apply registration_family|].
  split; [apply registration_containers|].
  unfold registration at 1 2 3 4 5 6 7.
  repeat (split; [by simplify_map_eq|]). done.
Qed.

(** ** More about runs of [deploy] *)

Ltac run_deploy_logs H :=
  run_deploy H; cbn [printed ecs_events omap list_omap] in *.

Lemma no_exception_latest_line arn : no_exception (latest_line arn).
Proof.
  intros e He. unfold latest_line in He.
  repeat (apply elem_of_cons in He as [He|He]; [discriminate|]).
  by apply elem_of_nil in He.
Qed.

Lemma no_exception_registered_line arn : no_exception (registered_line arn).
Proof.
  intros e He. unfold registered_line in He.
  repeat (apply elem_of_cons in He as [He|He]; [discriminate|]).
  by apply elem_of_nil in He.
Qed.

Lemma new_arn_dict d d' arn :
  d !! "taskDefinition" = Some (PDict d') →
  d' !! "taskDefinitionArn" = Some arn →
  new_arn (PDict d) = Ok arn.
Proof.
  intros H H'. unfold new_arn, py_getitem. rewrite H. simpl. by rewrite H'.
Qed.

(** X1.  When a secret cannot be read, or the client cannot be built,
    [deploy] raises that very exception; no method of the ECS client is
    called and nothing is printed. *)
Theorem deploy_credentials_failure self cluster dir access_key secret_key
    session_token region service task_definition_family image w
    r (tr : list (event P)) w' e :
  deploy self cluster dir access_key secret_key session_token region service
         task_definition_family image w = (r, tr, w') →
  (∃ s, EvPlaintext s (Raise e) ∈ tr) ∨
  (∃ name kwargs, EvClient name kwargs (Raise e) ∈ tr) →
  r = Raise e ∧ ecs_events tr = [] ∧ printed tr = [].
Proof.
  intros Hrun [[s Hin]|(name & kwargs & Hin)].
  all: run_deploy_logs Hrun; leaves; done.
Qed.

(** X2.  When UpdateService raises, [deploy] raises that very exception.
    The run has then made the lookup, the fetch and the registration, all
    answered, and the update, in this order and nothing after: the revision
    it registered stays registered. *)
Theorem deploy_service_update_failure self cluster dir access_key secret_key
    session_token region service task_definition_family image w
    r (tr : list (event P)) w' kwargs e :
  deploy self cluster dir access_key secret_key session_token region service
         task_definition_family image w = (r, tr, w') →
  (kwargs, Raise e) ∈ ecs_calls update_service tr →
  r = Raise e ∧
  ∃ kwargs_r new arn answer_l answer_d,
    ecs_calls register_task_definition tr = [(kwargs_r, Ok new)] ∧
    new_arn new = Ok arn ∧
    kwargs = service_update cluster service arn ∧
    ecs_events tr = [(list_task_definitions, Ok answer_l);
                     (describe_task_definition, Ok answer_d);
                     (register_task_definition, Ok new);
                     (update_service, Raise e)].
Proof.
  intros Hrun Hin.
  run_deploy_logs Hrun; leaves.
  all: split; [done|].
  all: eexists _, _, _, _, _; split; [done|].
  all: split; [by eapply new_arn_dict|].
  all: by unfold service_update.
Qed.

(** X3.  A run of [deploy] that raises inside the [try] block, that is
    once the client calls have begun, an exception derived from
    [Exception] prints the line "Error updating ECS service: <e>", once and
    as the last thing it does.  A run that raises before the block, or
    raises an exception not derived from [Exception], prints no line with
    an exception. *)
Theorem deploy_error_line self cluster dir access_key secret_key
    session_token region service task_definition_family image w
    e (tr : list (event P)) w' :
  deploy self cluster dir access_key secret_key session_token region service
         task_definition_family image w = (Raise e, tr, w') →
  (ecs_events tr ≠ [] → is_Exception e = true →
   last tr = Some (EvPrint (error_line e)) ∧
   ∃ info, printed tr = info ++ [error_line e] ∧ Forall no_exception info) ∧
  (ecs_events tr = [] ∨ is_Exception e = false →
   Forall no_exception (printed tr)).
Proof.
  intros Hrun.
  run_deploy_logs Hrun.
  all: split; [intros Hcalls Hexception | intros [Hcalls|Hexception]].
  all: try done; try congruence.
  all: try (split; [reflexivity|]).
  all: try first [ by exists []
                 | by (eexists [_]; split;
                       [reflexivity
                       |repeat constructor; apply no_exception_latest_line])
                 | by (eexists [_; _]; split;
                       [reflexivity
                       |repeat constructor;
                        [apply no_exception_latest_line
                        |apply no_exception_registered_line]]) ].
  all: repeat constructor.
  all: first [apply no_exception_latest_line|apply no_exception_registered_line].
Qed.

(** X4.  The methods of the ECS client a run of [deploy] calls are a
    prefix of: ListTaskDefinitions, DescribeTaskDefinition,
    RegisterTaskDefinition, UpdateService.  Each is called at most once,
    in this order, and only after the one before has answered. *)
Theorem deploy_call_order self cluster dir access_key secret_key
    session_token region service task_definition_family image w
    r (tr : list (event P)) w' :
  deploy self cluster dir access_key secret_key session_token region service
         task_definition_family image w = (r, tr, w') →
  (ecs_events tr).*1 `prefix_of` ecs_protocol ∧
  Forall (λ call, ∃ v, call.2 = Ok v) (removelast (ecs_events tr)).
Proof.
  intros Hrun.
  run_deploy_logs Hrun.
  all: split; [unfold ecs_protocol; simpl; by eexists|].
  all: simpl; repeat constructor; by eexists.
Qed.

(** X5.  A run of [deploy] that returns has done exactly this, in this
    order: published the image of [push]; read the access key, the secret
    key and the session token; built the ECS client; looked the family up
    and printed the latest ARN; fetched that revision; registered the new
    one and printed its ARN; updated the service.  All four calls go
    through the one client. *)
Theorem deploy_success_trace self cluster dir access_key secret_key
    session_token region service task_definition_family image w
    s (tr : list (event P)) w' :
  deploy self cluster dir access_key secret_key session_token region service
         task_definition_family image w = (Ok s, tr, w') →
  ∃ ref a b c cl response arn described kwargs_r new arn' ack,
    tr = [EvPublish
            (build self dir
               ++ [with_entrypoint ["/path/to/venv/bin/python3"; "app.py"]])
            (registry self) (Ok ref);
          EvPlaintext access_key (Ok a);
          EvPlaintext secret_key (Ok b);
          EvPlaintext session_token (Ok c);
          EvClient "ecs" (client_kwargs a b c region) (Ok cl);
          EvEcs cl list_task_definitions
                (latest_lookup task_definition_family) (Ok response);
          EvPrint (latest_line arn);
          EvEcs cl describe_task_definition {["taskDefinition" := arn]}
                (Ok described);
          EvEcs cl register_task_definition kwargs_r (Ok new);
          EvPrint (registered_line arn');
          EvEcs cl update_service (service_update cluster service arn')
                (Ok ack)].
Proof.
  intros Hrun.
  run_deploy Hrun.
  unfold client_kwargs, latest_lookup, latest_line, registered_line,
    service_update.
  by eexists _, _, _, _, _, _, _, _, _, _, _, _.
Qed.

(** X6.  The ECS client of [deploy] is built for the service "ecs" with
    the plaintext of [access_key] as access key id, of [secret_key] as
    secret access key, of [session_token] as session token, and [region] as
    region name; the three secrets are read in this order, after the
    publication and before anything else. *)
Theorem deploy_client_credentials self cluster dir access_key secret_key
    session_token region service task_definition_family image w
    r (tr : list (event P)) w' name kwargs answer :
  deploy self cluster dir access_key secret_key session_token region service
         task_definition_family image w = (r, tr, w') →
  EvClient name kwargs answer ∈ tr →
  ∃ ref a b c rest,
    name = "ecs" ∧
    kwargs = client_kwargs a b c region ∧
    tr = EvPublish
           (build self dir
              ++ [with_entrypoint ["/path/to/venv/bin/python3"; "app.py"]])
           (registry self) (Ok ref)
         :: EvPlaintext access_key (Ok a)
         :: EvPlaintext secret_key (Ok b)
         :: EvPlaintext session_token (Ok c)
         :: EvClient name kwargs answer
         :: rest.
Proof.
  intros Hrun Hin.
  run_deploy Hrun; leaves.
  all: unfold client_kwargs.
  all: by eexists _, _, _, _, _.
Qed.

(** X7.  The revision [deploy] fetches is the first element of the
    ['taskDefinitionArns'] the lookup answered, and the lookup asks for
    the family prefix [task_definition_family], in descending order,
    one result at most. *)
Theorem deploy_describes_first_listed self cluster dir access_key secret_key
    session_token region service task_definition_family image w
    r (tr : list (event P)) w' kwargs answer :
  deploy self cluster dir access_key secret_key session_token region service
         task_definition_family image w = (r, tr, w') →
  (kwargs, answer) ∈ ecs_calls describe_task_definition tr →
  ∃ response arns arn,
    ecs_calls list_task_definitions tr
      = [(latest_lookup task_definition_family, Ok response)] ∧
    py_getitem response "taskDefinitionArns" = Ok arns ∧
    py_truthy arns = true ∧
    py_index arns 0 = Ok arn ∧
    kwargs = {["taskDefinition" := arn]} ∧
    ∀ first others, arns = PList (first :: others) → arn = first.
Proof.
  intros Hrun Hin.
  run_deploy Hrun; leaves.
  all: unfold latest_lookup.
  all: eexists _, _, _; split; [done|].
  all: split; [by apply py_getitem_dict|].
  all: do 3 (split; [done|]).
  all: intros first others ->; simpl in *; congruence.
Qed.

(** X8.  When the fetched revision has container definitions the loop
    accepts but no ['family'], [deploy] raises [KeyError('family')] after
    the loop, prints the error line and registers nothing. *)
Theorem deploy_fetched_family_missing self cluster dir access_key secret_key
    session_token region service task_definition_family image w
    r (tr : list (event P)) w' ref kwargs described td cds cds' :
  deploy self cluster dir access_key secret_key session_token region service
         task_definition_family image w = (r, tr, w') →
  Ok ref ∈ published tr →
  (kwargs, Ok described) ∈ ecs_calls describe_task_definition tr →
  py_getitem described "taskDefinition" = Ok (PDict td) →
  td !! "containerDefinitions" = Some cds →
  update_images ref cds = Ok cds' →
  td !! "family" = None →
  r = Raise (KeyError (PStr "family")) ∧
  ecs_calls register_task_definition tr = [] ∧
  ecs_calls update_service tr = [] ∧
  last tr = Some (EvPrint (error_line (KeyError (PStr "family")))).
Proof.
  intros Hrun Hpub Hin Htd Hcds Hloop Hfamily.
  run_deploy Hrun; leaves.
  all: try match goal with
       | H : update_images _ _ = _ |- _ => rewrite Hloop in H; simplify_eq
       end.
  all: done.
Qed.

(** X9.  When the fetched revision has no ['containerDefinitions'],
    [deploy] raises [KeyError('containerDefinitions')], whether or not it
    has a family, prints the error line and registers nothing. *)
Theorem deploy_fetched_containers_missing self cluster dir access_key
    secret_key session_token region service task_definition_family image w
    r (tr : list (event P)) w' kwargs described td :
  deploy self cluster dir access_key secret_key session_token region service
         task_definition_family image w = (r, tr, w') →
  (kwargs, Ok described) ∈ ecs_calls describe_task_definition tr →
  py_getitem described "taskDefinition" = Ok (PDict td) →
  td !! "containerDefinitions" = None →
  r = Raise (KeyError (PStr "containerDefinitions")) ∧
  ecs_calls register_task_definition tr = [] ∧
  ecs_calls update_service tr = [] ∧
  last tr = Some (EvPrint (error_line (KeyError (PStr "containerDefinitions")))).
Proof.
  intros Hrun Hin Htd Hcds.
  run_deploy Hrun; leaves.
  all: done.
Qed.

(** X10.  When RegisterTaskDefinition answers without
    ['taskDefinition']['taskDefinitionArn'], [deploy] raises the exception
    of that subscript and never calls UpdateService: the revision is
    registered and the service is left as it was. *)
Theorem deploy_registered_arn_missing self cluster dir access_key secret_key
    session_token region service task_definition_family image w
    r (tr : list (event P)) w' kwargs new e :
  deploy self cluster dir access_key secret_key session_token region service
         task_definition_family image w = (r, tr, w') →
  (kwargs, Ok new) ∈ ecs_calls register_task_definition tr →
  new_arn new = Raise e →
  r = Raise e ∧
  ecs_calls update_service tr = [] ∧
  ∃ answer_l answer_d,
    ecs_events tr = [(list_task_definitions, Ok answer_l);
                     (describe_task_definition, Ok answer_d);
                     (register_task_definition, Ok new)].
Proof.
  intros Hrun Hin Hnew.
  run_deploy_logs Hrun; leaves.
  all: unfold new_arn in Hnew.
  all: repeat first
         [ progress cbn [py_getitem mbind result_bind] in Hnew
         | match goal with
           | H : _ !! _ = _ |- _ => rewrite H in Hnew
           | H : py_getitem _ _ = _ |- _ => rewrite H in Hnew
           end ].
  all: simplify_eq.
  all: split; [done|]; split; [done|]; by eexists _, _.
Qed.

(** X11.  When the loop over the container definitions raises, which it
    does with a [TypeError] only, [deploy] raises that [TypeError] and
    registers nothing. *)
Theorem deploy_loop_failure self cluster dir access_key secret_key
    session_token region service task_definition_family image w
    r (tr : list (event P)) w' ref kwargs described td cds e :
  deploy self cluster dir access_key secret_key session_token region service
         task_definition_family image w = (r, tr, w') →
  Ok ref ∈ published tr →
  (kwargs, Ok described) ∈ ecs_calls describe_task_definition tr →
  py_getitem described "taskDefinition" = Ok (PDict td) →
  td !! "containerDefinitions" = Some cds →
  update_images ref cds = Raise e →
  e = TypeError ∧
  r = Raise TypeError ∧
  ecs_calls register_task_definition tr = [] ∧
  ecs_calls update_service tr = [].
Proof.
  intros Hrun Hpub Hin Htd Hcds Hloop.
  assert (e = TypeError) as ->.
  { by eapply update_images_Raise. }
  split; [done|].
  run_deploy Hrun; leaves.
  all: try match goal with
       | H : update_images _ _ = _ |- _ => rewrite Hloop in H; simplify_eq
       end.
  all: done.
Qed.

(** X12.  When the lookup answers with a ['taskDefinitionArns'] that is
    false for Python, be it the empty list, [None], the empty string, zero
    or an empty dictionary, [deploy] raises the "family not found" error
    and goes no further. *)
Theorem deploy_no_arns self cluster dir access_key secret_key
    session_token region service task_definition_family image w
    r (tr : list (event P)) w' kwargs response arns :
  deploy self cluster dir access_key secret_key session_token region service
         task_definition_family image w = (r, tr, w') →
  (kwargs, Ok response) ∈ ecs_calls list_task_definitions tr →
  py_getitem response "taskDefinitionArns" = Ok arns →
  py_truthy arns = false →
  r = Raise (ValueError ("No task definitions found for family: "
                         +:+ task_definition_family)) ∧
  ecs_events tr = [(list_task_definitions, Ok response)].
Proof.
  intros Hrun Hin Harns Hfalse.
  run_deploy_logs Hrun; leaves; done.
Qed.


(** X16.  When a method of the ECS client raises, whichever of the four,
    [deploy] raises that very exception and that call is the last one of
    the run: nothing is retried and nothing is called after it. *)
Theorem deploy_call_failure self cluster dir access_key secret_key
    session_token region service task_definition_family image w
    r (tr : list (event P)) w' op e :
  deploy self cluster dir access_key secret_key session_token region service
         task_definition_family image w = (r, tr, w') →
  (op, Raise e) ∈ ecs_events tr →
  r = Raise e ∧ last (ecs_events tr) = Some (op, Raise e).
Proof.
  intros Hrun Hin.
  run_deploy_logs Hrun; leaves; done.
Qed.

End Claims.

(** ** The scenario of the specification, run *)

(** C2 as stated fails.  Against the account of the scenario, whose
    revision of "web-task" has a field [pidMode], [deploy] fetches that
    revision and makes one registration, and the registration does not
    preserve every field: it has no [pidMode]. *)
Lemma registration_drops_fields :
  (λ call, call.2)
    <$> ecs_calls describe_task_definition
          (Mem.deploy0 "web-task" None Mem.account0).1.2
  = [Ok (PDict {["taskDefinition" := PDict Mem.web_task]})] ∧
  Mem.web_task !! "pidMode" = Some (PStr "host") ∧
  length (ecs_calls register_task_definition
            (Mem.deploy0 "web-task" None Mem.account0).1.2) = 1 ∧
  ¬ Forall (λ call, preserves_every_field Mem.web_task call.1)
           (ecs_calls register_task_definition
              (Mem.deploy0 "web-task" None Mem.account0).1.2).
Proof.
  split; [by_vm|].
  split; [by_vm|].
  split; [by_vm|].
  intros Hall.
  assert ((λ call, call.1 !! "pidMode")
            <$> ecs_calls register_task_definition
                  (Mem.deploy0 "web-task" None Mem.account0).1.2
          = [None]) as Hnone by (by_vm).
  destruct (ecs_calls register_task_definition _) as [|call calls];
    [discriminate|].
  injection Hnone as Hnone _.
  apply Forall_cons_1 in Hall as [Hcall _].
  rewrite (Hcall "pidMode" (PStr "host")) in Hnone; [discriminate|done|].
  by_vm.
Qed.

Lemma deploy0_run family image w :
  deploy (P := Mem.platform) default_EcsdemoCicd "demo" () "AKIA" "secret"
         "token" "us-west-2" "web" family image w
  = ((Mem.deploy0 family image w).1.1, (Mem.deploy0 family image w).1.2,
     (Mem.deploy0 family image w).2).
Proof. unfold Mem.deploy0. by destruct (deploy _ _ _ _ _ _ _ _ _ _ _) as [[? ?] ?]. Qed.

Lemma deploy0_run_Ok family image w s :
  (Mem.deploy0 family image w).1.1 = Ok s →
  deploy (P := Mem.platform) default_EcsdemoCicd "demo" () "AKIA" "secret"
         "token" "us-west-2" "web" family image w
  = (Ok s, (Mem.deploy0 family image w).1.2, (Mem.deploy0 family image w).2).
Proof. intros <-. apply deploy0_run. Qed.

(** The scenario: the application container gets the published image and
    the sidecar stays untouched. *)
Example scenario_derived_containers :
  update_images "registry/app:sha123"
    (PList [PDict (<["name" := PStr "app"]> {["image" := PStr "old:1.0"]});
            PDict {["name" := PStr "sidecar"]}])
  = Ok (PList [PDict (<["name" := PStr "app"]>
                        {["image" := PStr "registry/app:sha123"]});
               PDict {["name" := PStr "sidecar"]}]).
Proof. by_vm. Qed.

Example scenario_confirmation :
  (Mem.deploy0 "web-task" None Mem.account0).1.1
  = Ok "Service web updated to use task definition arn:aws:ecs:task-definition/web-task:2".
Proof. by_vm. Qed.

(** C3 at work: the account has no family "nope". *)
Lemma deploy_family_not_found_witness :
  (Mem.deploy0 "nope" None Mem.account0).1.1
  = Raise (ValueError "No task definitions found for family: nope") ∧
  ecs_calls describe_task_definition (Mem.deploy0 "nope" None Mem.account0).1.2 = [] ∧
  ecs_calls register_task_definition (Mem.deploy0 "nope" None Mem.account0).1.2 = [] ∧
  ecs_calls update_service (Mem.deploy0 "nope" None Mem.account0).1.2 = [].
Proof.
  apply (deploy_family_not_found (P := Mem.platform)
           default_EcsdemoCicd "demo" () "AKIA" "secret" "token" "us-west-2"
           "web" "nope" None Mem.account0
           (Mem.deploy0 "nope" None Mem.account0).1.1
           (Mem.deploy0 "nope" None Mem.account0).1.2
           (Mem.deploy0 "nope" None Mem.account0).2
           (Mem.list_kwargs "nope")
           (PDict {["taskDefinitionArns" := PList []]})).
  - apply deploy0_run.
  - apply elem_of_only. by_vm.
  - reflexivity.
Defined.

(** C4 at work: the service refuses the registration. *)
Lemma deploy_registration_failure_witness :
  (Mem.deploy0 "web-task" None Mem.account_rejecting).1.1
  = Raise (Failure "ClientException: registration rejected") ∧
  ecs_calls update_service (Mem.deploy0 "web-task" None Mem.account_rejecting).1.2 = [].
Proof.
  apply (deploy_registration_failure (P := Mem.platform)
           default_EcsdemoCicd "demo" () "AKIA" "secret" "token" "us-west-2"
           "web" "web-task" None Mem.account_rejecting
           (Mem.deploy0 "web-task" None Mem.account_rejecting).1.1
           (Mem.deploy0 "web-task" None Mem.account_rejecting).1.2
           (Mem.deploy0 "web-task" None Mem.account_rejecting).2
           Mem.kwargs0).
  - apply deploy0_run.
  - apply elem_of_only. by_vm.
Defined.

(** C6 at work: the registry cannot be reached. *)
Lemma deploy_push_failure_witness :
  (Mem.deploy0 "web-task" None Mem.account_unreachable).1.1
  = Raise (Failure "publish: connection refused") ∧
  (Mem.deploy0 "web-task" None Mem.account_unreachable).1.2
  = [EvPublish
       (build (P := Mem.platform) default_EcsdemoCicd ()
          ++ [with_entrypoint ["/path/to/venv/bin/python3"; "app.py"]])
       (registry default_EcsdemoCicd)
       (Raise (Failure "publish: connection refused"))] ∧
  ∀ op, ecs_calls op (Mem.deploy0 "web-task" None Mem.account_unreachable).1.2 = [].
Proof.
  apply (deploy_push_failure (P := Mem.platform)
           default_EcsdemoCicd "demo" () "AKIA" "secret" "token" "us-west-2"
           "web" "web-task" None Mem.account_unreachable
           (Mem.deploy0 "web-task" None Mem.account_unreachable).1.1
           (Mem.deploy0 "web-task" None Mem.account_unreachable).1.2
           (Mem.deploy0 "web-task" None Mem.account_unreachable).2).
  - apply deploy0_run.
  - apply elem_of_only. by_vm.
Defined.

(** C8 at work: the scenario, deployed. *)
Lemma deploy_returns_confirmation_witness :
  ∃ kwargs new_task_definition registered arn ack,
    ecs_calls register_task_definition
      (Mem.deploy0 "web-task" None Mem.account0).1.2
    = [(kwargs, Ok new_task_definition)] ∧
    py_getitem new_task_definition "taskDefinition" = Ok registered ∧
    py_getitem registered "taskDefinitionArn" = Ok arn ∧
    ecs_calls update_service (Mem.deploy0 "web-task" None Mem.account0).1.2
    = [(service_update "demo" "web" arn, Ok ack)] ∧
    "Service web updated to use task definition arn:aws:ecs:task-definition/web-task:2"
    = "Service " +:+ "web" +:+ " updated to use task definition "
      +:+ py_str Mem.platform arn ∧
    ∀ a, arn = PStr a →
         "Service web updated to use task definition arn:aws:ecs:task-definition/web-task:2"
         = "Service " +:+ "web" +:+ " updated to use task definition " +:+ a.
Proof.
  apply (deploy_returns_confirmation (P := Mem.platform)
           default_EcsdemoCicd "demo" () "AKIA" "secret" "token" "us-west-2"
           "web" "web-task" None Mem.account0
           "Service web updated to use task definition arn:aws:ecs:task-definition/web-task:2"
           (Mem.deploy0 "web-task" None Mem.account0).1.2
           (Mem.deploy0 "web-task" None Mem.account0).2).
  apply deploy0_run_Ok. by_vm.
Defined.

(** C10 at work: a family whose only container has no image. *)
Lemma deploy_without_images_witness :
  ∃ answer,
    ecs_calls register_task_definition
      (Mem.deploy0 "sidecars" None Mem.account_sidecars).1.2
    = [(registration (PStr "sidecars")
          (PList [PDict {["name" := PStr "sidecar"]}]) Mem.sidecars, answer)] ∧
    ∀ new_task_definition registered arn,
      answer = Ok new_task_definition →
      py_getitem new_task_definition "taskDefinition" = Ok registered →
      py_getitem registered "taskDefinitionArn" = Ok arn →
      ∃ ack, ecs_calls update_service
               (Mem.deploy0 "sidecars" None Mem.account_sidecars).1.2
             = [(service_update "demo" "web" arn, ack)].
Proof.
  apply (deploy_without_images (P := Mem.platform)
           default_EcsdemoCicd "demo" () "AKIA" "secret" "token" "us-west-2"
           "web" "sidecars" None Mem.account_sidecars
           (Mem.deploy0 "sidecars" None Mem.account_sidecars).1.1
           (Mem.deploy0 "sidecars" None Mem.account_sidecars).1.2
           (Mem.deploy0 "sidecars" None Mem.account_sidecars).2
           (Mem.describe_kwargs "arn:aws:ecs:task-definition/sidecars:1")
           (PDict {["taskDefinition" := PDict Mem.sidecars]})
           Mem.sidecars (PStr "sidecars")
           [PDict {["name" := PStr "sidecar"]}]).
  - apply deploy0_run.
  - apply elem_of_only. by_vm.
  - reflexivity.
  - reflexivity.
  - reflexivity.
  - constructor; [|constructor]. eexists. split; reflexivity.
Defined.

(** C1 at work: the scenario. *)
Lemma deploy_overwrites_images_witness :
  ∃ cds',
    update_images "registry/app:sha123"
      (PList [PDict (<["name" := PStr "app"]> {["image" := PStr "old:1.0"]});
              PDict {["name" := PStr "sidecar"]}])
    = Ok (PList cds') ∧
    Forall2 (image_overwritten "registry/app:sha123")
      [PDict (<["name" := PStr "app"]> {["image" := PStr "old:1.0"]});
       PDict {["name" := PStr "sidecar"]}] cds' ∧
    (∀ kwargs_r answer,
       (kwargs_r, answer)
       ∈ ecs_calls register_task_definition
           (Mem.deploy0 "web-task" None Mem.account0).1.2 →
       kwargs_r !! "containerDefinitions" = Some (PList cds')) ∧
    (∀ family,
       Mem.web_task !! "family" = Some family →
       ∃ answer, ecs_calls register_task_definition
                   (Mem.deploy0 "web-task" None Mem.account0).1.2
                 = [(registration family (PList cds') Mem.web_task, answer)]).
Proof.
  apply (deploy_overwrites_images (P := Mem.platform)
           default_EcsdemoCicd "demo" () "AKIA" "secret" "token" "us-west-2"
           "web" "web-task" None Mem.account0
           (Mem.deploy0 "web-task" None Mem.account0).1.1
           (Mem.deploy0 "web-task" None Mem.account0).1.2
           (Mem.deploy0 "web-task" None Mem.account0).2
           "registry/app:sha123"
           (Mem.describe_kwargs "arn:aws:ecs:task-definition/web-task:1")
           (PDict {["taskDefinition" := PDict Mem.web_task]})
           Mem.web_task).
  - apply deploy0_run.
  - apply elem_of_only. by_vm.
  - apply elem_of_only. by_vm.
  - reflexivity.
  - by_vm.
  - constructor; [by eexists|]. constructor; [by eexists|]. constructor.
Defined.

(** C5 at work: the scenario, with and without an image argument. *)
Lemma deploy_ignores_image_argument_witness :
  Mem.deploy0 "web-task" None Mem.account0
  = Mem.deploy0 "web-task" (Some "other/image:tag") Mem.account0 ∧
  ∃ cds, Mem.kwargs0 !! "containerDefinitions" = Some cds ∧
         Forall (λ v, v = PStr "registry/app:sha123") (container_images cds).
Proof.
  pose proof (deploy_ignores_image_argument (P := Mem.platform)
                default_EcsdemoCicd "demo" () "AKIA" "secret" "token"
                "us-west-2" "web" "web-task" None (Some "other/image:tag")
                Mem.account0) as [Hsame Himages].
  split; [exact Hsame|].
  apply (Himages (Mem.deploy0 "web-task" None Mem.account0).1.1
                 (Mem.deploy0 "web-task" None Mem.account0).1.2
                 (Mem.deploy0 "web-task" None Mem.account0).2
                 "registry/app:sha123" Mem.kwargs0 (Ok Mem.answer0)).
  - apply deploy0_run.
  - apply elem_of_only. by_vm.
  - apply elem_of_only. by_vm.
Defined.

(** C9 at work: a deployment to the family "web" against the account of
    the scenario. *)
Lemma deploy_registers_fetched_family_witness :
  (∀ kwargs answer,
     (kwargs, answer)
     ∈ ecs_calls list_task_definitions (Mem.deploy0 "web" None Mem.account0).1.2 →
     kwargs !! "familyPrefix" = Some (PStr "web")) ∧
  (∀ kwargs_d described td kwargs answer,
     (kwargs_d, Ok described)
     ∈ ecs_calls describe_task_definition
         (Mem.deploy0 "web" None Mem.account0).1.2 →
     py_getitem described "taskDefinition" = Ok td →
     (kwargs, answer)
     ∈ ecs_calls register_task_definition
         (Mem.deploy0 "web" None Mem.account0).1.2 →
     ∃ family, py_getitem td "family" = Ok family ∧
               kwargs !! "family" = Some family) ∧
  (λ call, call.1 !! "family")
    <$> ecs_calls register_task_definition
          (Mem.deploy0 "web" None Mem.account0).1.2
  = [Some (PStr "web-task")].
Proof.
  apply (deploy_registers_fetched_family (P := Mem.platform)
           default_EcsdemoCicd "demo" () "AKIA" "secret" "token" "us-west-2"
           "web" "web" None Mem.account0
           (Mem.deploy0 "web" None Mem.account0).1.1
           (Mem.deploy0 "web" None Mem.account0).1.2
           (Mem.deploy0 "web" None Mem.account0).2).
  apply deploy0_run.
Defined.

(** C2, as the code has it, at work: the registration of the scenario. *)
Lemma deploy_registration_fields_witness :
  ∃ kwargs answer,
    ecs_calls register_task_definition
      (Mem.deploy0 "web-task" None Mem.account0).1.2
    = [(kwargs, answer)] ∧
    kwargs !! "family" = Some (PStr "web-task") ∧
    kwargs !! "containerDefinitions"
    = Some (PList [PDict (<["name" := PStr "app"]>
                            {["image" := PStr "registry/app:sha123"]});
                   PDict {["name" := PStr "sidecar"]}]) ∧
    kwargs !! "volumes" = Some (default (PList []) (Mem.web_task !! "volumes")) ∧
    kwargs !! "taskRoleArn"
    = Some (default PNone (Mem.web_task !! "taskRoleArn")) ∧
    kwargs !! "executionRoleArn"
    = Some (default PNone (Mem.web_task !! "executionRoleArn")) ∧
    kwargs !! "networkMode"
    = Some (default PNone (Mem.web_task !! "networkMode")) ∧
    kwargs !! "requiresCompatibilities"
    = Some (default (PList []) (Mem.web_task !! "requiresCompatibilities")) ∧
    kwargs !! "cpu" = Some (default PNone (Mem.web_task !! "cpu")) ∧
    kwargs !! "memory" = Some (default PNone (Mem.web_task !! "memory")) ∧
    (∀ k, k ∉ registration_fields → kwargs !! k = None).
Proof.
  apply (deploy_registration_fields (P := Mem.platform)
           default_EcsdemoCicd "demo" () "AKIA" "secret" "token" "us-west-2"
           "web" "web-task" None Mem.account0
           (Mem.deploy0 "web-task" None Mem.account0).1.1
           (Mem.deploy0 "web-task" None Mem.account0).1.2
           (Mem.deploy0 "web-task" None Mem.account0).2
           "registry/app:sha123"
           (Mem.describe_kwargs "arn:aws:ecs:task-definition/web-task:1")
           (PDict {["taskDefinition" := PDict Mem.web_task]})
           Mem.web_task (PStr "web-task")
           (PList [PDict (<["name" := PStr "app"]> {["image" := PStr "old:1.0"]});
                   PDict {["name" := PStr "sidecar"]}])).
  - apply deploy0_run.
  - apply elem_of_only. by_vm.
  - apply elem_of_only. by_vm.
  - reflexivity.
  - by_vm.
  - by_vm.
  - by_vm.
Defined.


(** In the account in memory the two deployments end on two revisions,
    2 and 3 of "web-task". *)
Example scenario_twice_revisions :
  (λ call, call.1 !! "taskDefinition")
    <$> ecs_calls update_service
          ((Mem.deploy0 "web-task" None Mem.account0).1.2
           ++ (Mem.deploy0 "web-task" None Mem.account1).1.2)
  = [Some (PStr "arn:aws:ecs:task-definition/web-task:2");
     Some (PStr "arn:aws:ecs:task-definition/web-task:3")].
Proof. by_vm. Qed.

(** ** More runs *)

Lemma faults_run answers locked family :
  deploy (P := Faults.platform answers locked) default_EcsdemoCicd "demo" ()
         "AKIA" "secret" "token" "us-west-2" "web" family None Mem.account0
  = ((Faults.deploy0 answers locked family).1.1,
     (Faults.deploy0 answers locked family).1.2,
     (Faults.deploy0 answers locked family).2).
Proof.
  unfold Faults.deploy0. by destruct (deploy _ _ _ _ _ _ _ _ _ _ _) as [[? ?] ?].
Qed.

Lemma deploy0_run_Raise family image w e :
  (Mem.deploy0 family image w).1.1 = Raise e →
  deploy (P := Mem.platform) default_EcsdemoCicd "demo" () "AKIA" "secret"
         "token" "us-west-2" "web" family image w
  = (Raise e, (Mem.deploy0 family image w).1.2, (Mem.deploy0 family image w).2).
Proof. intros <-. apply deploy0_run. Qed.

Lemma elem_of_at {A} (i : nat) (x : A) (l : list A) : l !! i = Some x → x ∈ l.
Proof. intros H. apply list_elem_of_lookup. by exists i. Qed.

(** X1 at work: the secrets are locked. *)
Lemma deploy_credentials_failure_witness :
  (Faults.deploy0 Faults.no_fault true "web-task").1.1
  = Raise (Failure "secret not found") ∧
  ecs_events (Faults.deploy0 Faults.no_fault true "web-task").1.2 = [] ∧
  printed (Faults.deploy0 Faults.no_fault true "web-task").1.2 = [].
Proof.
  apply (deploy_credentials_failure (P := Faults.platform Faults.no_fault true)
           default_EcsdemoCicd "demo" () "AKIA" "secret" "token" "us-west-2"
           "web" "web-task" None Mem.account0
           (Faults.deploy0 Faults.no_fault true "web-task").1.1
           (Faults.deploy0 Faults.no_fault true "web-task").1.2
           (Faults.deploy0 Faults.no_fault true "web-task").2).
  - apply faults_run.
  - left. exists "AKIA". apply (elem_of_at 1). by_vm.
Defined.

(** X2 at work: the service of the update is not found. *)
Lemma deploy_service_update_failure_witness :
  (Faults.deploy0 Faults.update_fails false "web-task").1.1
  = Raise (Failure "ServiceNotFoundException") ∧
  ∃ kwargs_r new arn answer_l answer_d,
    ecs_calls register_task_definition
      (Faults.deploy0 Faults.update_fails false "web-task").1.2
    = [(kwargs_r, Ok new)] ∧
    new_arn new = Ok arn ∧
    service_update "demo" "web"
      (PStr "arn:aws:ecs:task-definition/web-task:2")
    = service_update "demo" "web" arn ∧
    ecs_events (Faults.deploy0 Faults.update_fails false "web-task").1.2
    = [(list_task_definitions, Ok answer_l);
       (describe_task_definition, Ok answer_d);
       (register_task_definition, Ok new);
       (update_service, Raise (Failure "ServiceNotFoundException"))].
Proof.
  apply (deploy_service_update_failure
           (P := Faults.platform Faults.update_fails false)
           default_EcsdemoCicd "demo" () "AKIA" "secret" "token" "us-west-2"
           "web" "web-task" None Mem.account0
           (Faults.deploy0 Faults.update_fails false "web-task").1.1
           (Faults.deploy0 Faults.update_fails false "web-task").1.2
           (Faults.deploy0 Faults.update_fails false "web-task").2).
  - apply faults_run.
  - apply elem_of_only. by_vm.
Defined.

(** X3 at work: the family "nope" is not found, and the error is
    printed. *)
Lemma deploy_error_line_witness :
  last (Mem.deploy0 "nope" None Mem.account0).1.2
  = Some (EvPrint
            (error_line (ValueError "No task definitions found for family: nope"))) ∧
  ∃ info,
    printed (Mem.deploy0 "nope" None Mem.account0).1.2
    = info ++ [error_line (ValueError "No task definitions found for family: nope")] ∧
    Forall no_exception info.
Proof.
  apply (deploy_error_line (P := Mem.platform)
           default_EcsdemoCicd "demo" () "AKIA" "secret" "token" "us-west-2"
           "web" "nope" None Mem.account0
           (ValueError "No task definitions found for family: nope")
           (Mem.deploy0 "nope" None Mem.account0).1.2
           (Mem.deploy0 "nope" None Mem.account0).2).
  - apply deploy0_run_Raise. by_vm.
  - intros Hnone.
    assert (length (ecs_events (Mem.deploy0 "nope" None Mem.account0).1.2) = 1)
      as Hone by by_vm.
    rewrite Hnone in Hone. discriminate.
  - reflexivity.
Defined.

(** X4 at work: the scenario. *)
Lemma deploy_call_order_witness :
  (ecs_events (Mem.deploy0 "web-task" None Mem.account0).1.2).*1
    `prefix_of` ecs_protocol ∧
  Forall (λ call, ∃ v, call.2 = Ok v)
         (removelast (ecs_events (Mem.deploy0 "web-task" None Mem.account0).1.2)).
Proof.
  apply (deploy_call_order (P := Mem.platform)
           default_EcsdemoCicd "demo" () "AKIA" "secret" "token" "us-west-2"
           "web" "web-task" None Mem.account0
           (Mem.deploy0 "web-task" None Mem.account0).1.1
           (Mem.deploy0 "web-task" None Mem.account0).1.2
           (Mem.deploy0 "web-task" None Mem.account0).2).
  apply deploy0_run.
Defined.

(** X5 at work: the scenario. *)
Lemma deploy_success_trace_witness :
  ∃ ref a b c cl response arn described kwargs_r new arn' ack,
    (Mem.deploy0 "web-task" None Mem.account0).1.2
    = [EvPublish (P := Mem.platform)
         (build (P := Mem.platform) default_EcsdemoCicd ()
            ++ [with_entrypoint ["/path/to/venv/bin/python3"; "app.py"]])
         (registry default_EcsdemoCicd) (Ok ref);
       EvPlaintext (P := Mem.platform) "AKIA" (Ok a);
       EvPlaintext (P := Mem.platform) "secret" (Ok b);
       EvPlaintext (P := Mem.platform) "token" (Ok c);
       EvClient (P := Mem.platform) "ecs" (client_kwargs a b c "us-west-2") (Ok cl);
       EvEcs (P := Mem.platform) cl list_task_definitions (latest_lookup "web-task") (Ok response);
       EvPrint (P := Mem.platform) (latest_line arn);
       EvEcs (P := Mem.platform) cl describe_task_definition {["taskDefinition" := arn]}
             (Ok described);
       EvEcs (P := Mem.platform) cl register_task_definition kwargs_r (Ok new);
       EvPrint (P := Mem.platform) (registered_line arn');
       EvEcs (P := Mem.platform) cl update_service (service_update "demo" "web" arn') (Ok ack)].
Proof.
  apply (deploy_success_trace (P := Mem.platform)
           default_EcsdemoCicd "demo" () "AKIA" "secret" "token" "us-west-2"
           "web" "web-task" None Mem.account0
           "Service web updated to use task definition arn:aws:ecs:task-definition/web-task:2"
           (Mem.deploy0 "web-task" None Mem.account0).1.2
           (Mem.deploy0 "web-task" None Mem.account0).2).
  apply deploy0_run_Ok. by_vm.
Defined.

(** X6 at work: the scenario. *)
Lemma deploy_client_credentials_witness :
  ∃ ref a b c rest,
    "ecs" = "ecs" ∧
    client_kwargs "AKIA" "secret" "token" "us-west-2"
    = client_kwargs a b c "us-west-2" ∧
    (Mem.deploy0 "web-task" None Mem.account0).1.2
    = EvPublish (P := Mem.platform)
        (build (P := Mem.platform) default_EcsdemoCicd ()
           ++ [with_entrypoint ["/path/to/venv/bin/python3"; "app.py"]])
        (registry default_EcsdemoCicd) (Ok ref)
      :: EvPlaintext (P := Mem.platform) "AKIA" (Ok a)
      :: EvPlaintext (P := Mem.platform) "secret" (Ok b)
      :: EvPlaintext (P := Mem.platform) "token" (Ok c)
      :: EvClient (P := Mem.platform) "ecs" (client_kwargs "AKIA" "secret" "token" "us-west-2")
           (Ok ())
      :: rest.
Proof.
  apply (deploy_client_credentials (P := Mem.platform)
           default_EcsdemoCicd "demo" () "AKIA" "secret" "token" "us-west-2"
           "web" "web-task" None Mem.account0
           (Mem.deploy0 "web-task" None Mem.account0).1.1
           (Mem.deploy0 "web-task" None Mem.account0).1.2
           (Mem.deploy0 "web-task" None Mem.account0).2).
  - apply deploy0_run.
  - apply (elem_of_at 4). by_vm.
Defined.

(** X7 at work: the scenario. *)
Lemma deploy_describes_first_listed_witness :
  ∃ response arns arn,
    ecs_calls list_task_definitions
      (Mem.deploy0 "web-task" None Mem.account0).1.2
    = [(latest_lookup "web-task", Ok response)] ∧
    py_getitem response "taskDefinitionArns" = Ok arns ∧
    py_truthy arns = true ∧
    py_index arns 0 = Ok arn ∧
    Mem.describe_kwargs "arn:aws:ecs:task-definition/web-task:1"
    = {["taskDefinition" := arn]} ∧
    ∀ first others, arns = PList (first :: others) → arn = first.
Proof.
  apply (deploy_describes_first_listed (P := Mem.platform)
           default_EcsdemoCicd "demo" () "AKIA" "secret" "token" "us-west-2"
           "web" "web-task" None Mem.account0
           (Mem.deploy0 "web-task" None Mem.account0).1.1
           (Mem.deploy0 "web-task" None Mem.account0).1.2
           (Mem.deploy0 "web-task" None Mem.account0).2
           (Mem.describe_kwargs "arn:aws:ecs:task-definition/web-task:1")
           (Ok (PDict {["taskDefinition" := PDict Mem.web_task]}))).
  - apply deploy0_run.
  - apply elem_of_only. by_vm.
Defined.

(** X8 at work: a revision without family. *)
Lemma deploy_fetched_family_missing_witness :
  (Mem.deploy0 "" None Faults.account_nameless).1.1
  = Raise (KeyError (PStr "family")) ∧
  ecs_calls register_task_definition
    (Mem.deploy0 "" None Faults.account_nameless).1.2 = [] ∧
  ecs_calls update_service
    (Mem.deploy0 "" None Faults.account_nameless).1.2 = [] ∧
  last (Mem.deploy0 "" None Faults.account_nameless).1.2
  = Some (EvPrint (error_line (KeyError (PStr "family")))).
Proof.
  apply (deploy_fetched_family_missing (P := Mem.platform)
           default_EcsdemoCicd "demo" () "AKIA" "secret" "token" "us-west-2"
           "web" "" None Faults.account_nameless
           (Mem.deploy0 "" None Faults.account_nameless).1.1
           (Mem.deploy0 "" None Faults.account_nameless).1.2
           (Mem.deploy0 "" None Faults.account_nameless).2
           "registry/app:sha123"
           (Mem.describe_kwargs "arn:aws:ecs:task-definition/nameless:1")
           (PDict {["taskDefinition" := PDict Faults.nameless]})
           Faults.nameless
           (PList [PDict {["name" := PStr "sidecar"]}])
           (PList [PDict {["name" := PStr "sidecar"]}])).
  - apply deploy0_run.
  - apply elem_of_only. by_vm.
  - apply elem_of_only. by_vm.
  - reflexivity.
  - by_vm.
  - by_vm.
  - by_vm.
Defined.

(** X9 at work: a revision without container definitions. *)
Lemma deploy_fetched_containers_missing_witness :
  (Mem.deploy0 "empty" None Faults.account_empty).1.1
  = Raise (KeyError (PStr "containerDefinitions")) ∧
  ecs_calls register_task_definition
    (Mem.deploy0 "empty" None Faults.account_empty).1.2 = [] ∧
  ecs_calls update_service
    (Mem.deploy0 "empty" None Faults.account_empty).1.2 = [] ∧
  last (Mem.deploy0 "empty" None Faults.account_empty).1.2
  = Some (EvPrint (error_line (KeyError (PStr "containerDefinitions")))).
Proof.
  apply (deploy_fetched_containers_missing (P := Mem.platform)
           default_EcsdemoCicd "demo" () "AKIA" "secret" "token" "us-west-2"
           "web" "empty" None Faults.account_empty
           (Mem.deploy0 "empty" None Faults.account_empty).1.1
           (Mem.deploy0 "empty" None Faults.account_empty).1.2
           (Mem.deploy0 "empty" None Faults.account_empty).2
           (Mem.describe_kwargs "arn:aws:ecs:task-definition/empty:1")
           (PDict {["taskDefinition" := PDict Faults.empty_task]})
           Faults.empty_task).
  - apply deploy0_run.
  - apply elem_of_only. by_vm.
  - reflexivity.
  - by_vm.
Defined.

(** X10 at work: a registration answered with an empty body. *)
Lemma deploy_registered_arn_missing_witness :
  (Faults.deploy0 Faults.register_answers_nothing false "web-task").1.1
  = Raise (KeyError (PStr "taskDefinition")) ∧
  ecs_calls update_service
    (Faults.deploy0 Faults.register_answers_nothing false "web-task").1.2 = [] ∧
  ∃ answer_l answer_d,
    ecs_events
      (Faults.deploy0 Faults.register_answers_nothing false "web-task").1.2
    = [(list_task_definitions, Ok answer_l);
       (describe_task_definition, Ok answer_d);
       (register_task_definition, Ok (PDict ∅))].
Proof.
  apply (deploy_registered_arn_missing
           (P := Faults.platform Faults.register_answers_nothing false)
           default_EcsdemoCicd "demo" () "AKIA" "secret" "token" "us-west-2"
           "web" "web-task" None Mem.account0
           (Faults.deploy0 Faults.register_answers_nothing false "web-task").1.1
           (Faults.deploy0 Faults.register_answers_nothing false "web-task").1.2
           (Faults.deploy0 Faults.register_answers_nothing false "web-task").2
           Mem.kwargs0).
  - apply faults_run.
  - apply elem_of_only. by_vm.
  - by_vm.
Defined.

(** X11 at work: a revision whose container definitions are null. *)
Lemma deploy_loop_failure_witness :
  TypeError = TypeError ∧
  (Faults.deploy0 Faults.describe_answers_null_containers false "web-task").1.1
  = Raise TypeError ∧
  ecs_calls register_task_definition
    (Faults.deploy0 Faults.describe_answers_null_containers false "web-task").1.2
  = [] ∧
  ecs_calls update_service
    (Faults.deploy0 Faults.describe_answers_null_containers false "web-task").1.2
  = [].
Proof.
  apply (deploy_loop_failure
           (P := Faults.platform Faults.describe_answers_null_containers false)
           default_EcsdemoCicd "demo" () "AKIA" "secret" "token" "us-west-2"
           "web" "web-task" None Mem.account0
           (Faults.deploy0 Faults.describe_answers_null_containers false
                           "web-task").1.1
           (Faults.deploy0 Faults.describe_answers_null_containers false
                           "web-task").1.2
           (Faults.deploy0 Faults.describe_answers_null_containers false
                           "web-task").2
           "registry/app:sha123"
           (Mem.describe_kwargs "arn:aws:ecs:task-definition/web-task:1")
           (PDict {["taskDefinition" := PDict Faults.null_containers]})
           Faults.null_containers PNone).
  - apply faults_run.
  - apply elem_of_only. by_vm.
  - apply elem_of_only. by_vm.
  - reflexivity.
  - by_vm.
  - reflexivity.
Defined.

(** X12 at work: a lookup answered with a null array. *)
Lemma deploy_no_arns_witness :
  (Faults.deploy0 Faults.list_answers_null false "web-task").1.1
  = Raise (ValueError "No task definitions found for family: web-task") ∧
  ecs_events (Faults.deploy0 Faults.list_answers_null false "web-task").1.2
  = [(list_task_definitions, Ok (PDict {["taskDefinitionArns" := PNone]}))].
Proof.
  apply (deploy_no_arns (P := Faults.platform Faults.list_answers_null false)
           default_EcsdemoCicd "demo" () "AKIA" "secret" "token" "us-west-2"
           "web" "web-task" None Mem.account0
           (Faults.deploy0 Faults.list_answers_null false "web-task").1.1
           (Faults.deploy0 Faults.list_answers_null false "web-task").1.2
           (Faults.deploy0 Faults.list_answers_null false "web-task").2
           (latest_lookup "web-task")
           (PDict {["taskDefinitionArns" := PNone]}) PNone).
  - apply faults_run.
  - apply elem_of_only. by_vm.
  - reflexivity.
  - reflexivity.
Defined.

(** X13 at work: the containers of the scenario, a second time and with
    another reference. *)
Lemma update_images_again_witness :
  update_images "registry/app:sha123"
    (PList [PDict (<["name" := PStr "app"]>
                     {["image" := PStr "registry/app:sha123"]});
            PDict {["name" := PStr "sidecar"]}])
  = Ok (PList [PDict (<["name" := PStr "app"]>
                        {["image" := PStr "registry/app:sha123"]});
               PDict {["name" := PStr "sidecar"]}]) ∧
  update_images "registry/app:sha456"
    (PList [PDict (<["name" := PStr "app"]>
                     {["image" := PStr "registry/app:sha123"]});
            PDict {["name" := PStr "sidecar"]}])
  = update_images "registry/app:sha456"
      (PList [PDict (<["name" := PStr "app"]> {["image" := PStr "old:1.0"]});
              PDict {["name" := PStr "sidecar"]}]).
Proof.
  apply (update_images_again "registry/app:sha123" "registry/app:sha456"
           (PList [PDict (<["name" := PStr "app"]> {["image" := PStr "old:1.0"]});
                   PDict {["name" := PStr "sidecar"]}])).
  by_vm.
Defined.

(** X14 at work: the containers of the scenario. *)
Lemma update_images_list_witness :
  ∃ l',
    PList [PDict (<["name" := PStr "app"]>
                    {["image" := PStr "registry/app:sha123"]});
           PDict {["name" := PStr "sidecar"]}]
    = PList l' ∧
    length l' = 2 ∧
    Forall2 (image_step "registry/app:sha123")
      [PDict (<["name" := PStr "app"]> {["image" := PStr "old:1.0"]});
       PDict {["name" := PStr "sidecar"]}] l'.
Proof.
  apply (update_images_list "registry/app:sha123"
           [PDict (<["name" := PStr "app"]> {["image" := PStr "old:1.0"]});
            PDict {["name" := PStr "sidecar"]}]).
  by_vm.
Defined.

(** X16 at work: the service refuses the registration. *)
Lemma deploy_call_failure_witness :
  (Mem.deploy0 "web-task" None Mem.account_rejecting).1.1
  = Raise (Failure "ClientException: registration rejected") ∧
  last (ecs_events (Mem.deploy0 "web-task" None Mem.account_rejecting).1.2)
  = Some (register_task_definition,
          Raise (Failure "ClientException: registration rejected")).
Proof.
  apply (deploy_call_failure (P := Mem.platform)
           default_EcsdemoCicd "demo" () "AKIA" "secret" "token" "us-west-2"
           "web" "web-task" None Mem.account_rejecting
           (Mem.deploy0 "web-task" None Mem.account_rejecting).1.1
           (Mem.deploy0 "web-task" None Mem.account_rejecting).1.2
           (Mem.deploy0 "web-task" None Mem.account_rejecting).2).
  - apply deploy0_run.
  - apply (elem_of_at 2). by_vm.
Defined.
